(** * Guardian Safe: the BLE lock controller of [pi/guardianBT.py]

    A shallow embedding of the access-control part of the controller:
    the module globals, the relay and display feedback, OTP verification,
    the auto-close timers of the GLib main loop, the periodic health
    refresh and the 6-byte status frame of the status characteristic.

    Conventions.
    - Python [int] is [Z]; Python [float] is IEEE-754 binary64, modelled
      by the Standard Library's [spec_float] at precision 53.
    - A Python [str] built by [chr(byte)] from a D-Bus byte array only
      holds code points 0..255, so it is a Rocq [string]: one [ascii]
      per code point.
    - Module globals are the fields of [globals]; functions that write
      them run in the monad [M], which threads the globals and keeps the
      writes made before an exception is raised.
    - What the program does to the outside world (relay pin, feedback
      lines, sleeps, D-Bus signals, timer registrations) is appended to
      the [trace] field in program order. *)

From Stdlib Require Import ZArith List String Ascii Bool Lia.
From Stdlib Require Import Floats.SpecFloat.
From Stdlib Require Import DecimalString DecimalZ FinFun.
Import ListNotations.

Local Open Scope string_scope.
Local Open Scope list_scope.
Local Open Scope Z_scope.

(** ** Python values *)

Module Py.

(** Exceptions the modelled code can raise. *)
Inductive exn : Type :=
| ValueError      (* int(nan), dbus.Byte out of range *)
| OverflowError   (* int(inf) *)
| OSError.        (* the health sources could not be read or parsed *)

(** binary64 *)
Definition prec : Z := 53.
Definition emax : Z := 1024.

Definition float : Type := spec_float.

(** [float(n)] for an integer literal [n] (exact for the small
    constants of this program). *)
Definition float_of_Z (n : Z) : float :=
  match n with
  | Z0 => S754_zero false
  | Zpos p => binary_normalize prec emax (Zpos p) 0 false
  | Zneg p => binary_normalize prec emax (Zneg p) 0 true
  end.

Definition fmul (x y : float) : float := SFmul prec emax x y.
Definition fdiv (x y : float) : float := SFdiv prec emax x y.

(** [int(x)] on a float: truncation toward zero; raises on nan and
    on the infinities. *)
Definition int_of_float (x : float) : exn + Z :=
  match x with
  | S754_zero _ => inr 0
  | S754_infinity _ => inl OverflowError
  | S754_nan => inl ValueError
  | S754_finite s m e =>
      let a := if 0 <=? e then Z.shiftl (Zpos m) e
               else Z.shiftr (Zpos m) (- e) in
      inr (if s then - a else a)
  end.

(** [c.isdigit()] for one code point below 256: the ten decimal digits
    and the three superscript digits U+00B2, U+00B3 and U+00B9, which
    Unicode gives Numeric_Type=Digit. *)
Definition char_isdigit (c : ascii) : bool :=
  let n := Z.of_nat (nat_of_ascii c) in
  ((48 <=? n) && (n <=? 57)) || (n =? 178) || (n =? 179) || (n =? 185).

(** [c] is one of the ASCII decimal digits '0'..'9'. *)
Definition char_isdecimal (c : ascii) : bool :=
  let n := Z.of_nat (nat_of_ascii c) in
  (48 <=? n) && (n <=? 57).

Fixpoint str_forall (p : ascii -> bool) (s : string) : bool :=
  match s with
  | EmptyString => true
  | String c r => p c && str_forall p r
  end.

(** [s.isdigit()]: every character is a digit and there is at least
    one character. *)
Definition isdigit (s : string) : bool :=
  match s with
  | EmptyString => false
  | _ => str_forall char_isdigit s
  end.

(** The decimal-digit strings the claims speak of. *)
Definition all_decimal (s : string) : bool := str_forall char_isdecimal s.

Definition len (s : string) : Z := Z.of_nat (String.length s).

(** [''.join([chr(byte) for byte in value])] *)
Fixpoint join_chr (value : list Byte.byte) : string :=
  match value with
  | [] => EmptyString
  | b :: r => String (ascii_of_byte b) (join_chr r)
  end.

End Py.

(** ** D-Bus bytes *)

(** [dbus.Byte(x)] accepts the integers 0..255 and raises otherwise. *)
Definition dbus_Byte (x : Z) : Py.exn + Z :=
  if (0 <=? x) && (x <? 256) then inr x else inl Py.ValueError.

(** ** Module globals and the outside world *)

Inductive level : Type := LOW | HIGH.

(** What the program does to its environment, in program order. *)
Inductive event : Type :=
| Display (line1 line2 : string)       (* display_message *)
| GpioOutput (pin : Z) (l : level)     (* GPIO.output *)
| Sleep (seconds : Z)                  (* time.sleep *)
| PropertiesChanged (value : list Z)   (* the notification signal *)
| TimeoutAdd (seconds : Z).            (* GLib.timeout_add_seconds(_, auto_close_lock) *)

Definition RELAY_PIN : Z := 18.

Record globals : Type := mkGlobals {
  otp_verified : bool;
  lock_open : bool;
  current_otp : option string;
  (** [None], or the status characteristic with its cached [value] *)
  status_characteristic : option (list Z);
  safe_status : Z;
  battery_percent : Z;
  voltage : Py.float;
  ALLOWED_PHONE_MACS : list string;
  (** [value] of the OTP characteristic *)
  otp_value : list Byte.byte;
  (** seconds since the process started *)
  clock : Z;
  (** due times of the pending [auto_close_lock] sources of the main
      loop, in registration order *)
  timers : list Z;
  trace : list event
}.

Definition set_otp_verified (b : bool) (g : globals) : globals :=
  mkGlobals b (lock_open g) (current_otp g) (status_characteristic g)
    (safe_status g) (battery_percent g) (voltage g) (ALLOWED_PHONE_MACS g)
    (otp_value g) (clock g) (timers g) (trace g).

Definition set_lock_open (b : bool) (g : globals) : globals :=
  mkGlobals (otp_verified g) b (current_otp g) (status_characteristic g)
    (safe_status g) (battery_percent g) (voltage g) (ALLOWED_PHONE_MACS g)
    (otp_value g) (clock g) (timers g) (trace g).

Definition set_current_otp (o : option string) (g : globals) : globals :=
  mkGlobals (otp_verified g) (lock_open g) o (status_characteristic g)
    (safe_status g) (battery_percent g) (voltage g) (ALLOWED_PHONE_MACS g)
    (otp_value g) (clock g) (timers g) (trace g).

Definition set_status_characteristic (c : option (list Z)) (g : globals)
  : globals :=
  mkGlobals (otp_verified g) (lock_open g) (current_otp g) c
    (safe_status g) (battery_percent g) (voltage g) (ALLOWED_PHONE_MACS g)
    (otp_value g) (clock g) (timers g) (trace g).

Definition set_safe_status (x : Z) (g : globals) : globals :=
  mkGlobals (otp_verified g) (lock_open g) (current_otp g)
    (status_characteristic g) x (battery_percent g) (voltage g)
    (ALLOWED_PHONE_MACS g) (otp_value g) (clock g) (timers g) (trace g).

Definition set_battery_percent (x : Z) (g : globals) : globals :=
  mkGlobals (otp_verified g) (lock_open g) (current_otp g)
    (status_characteristic g) (safe_status g) x (voltage g)
    (ALLOWED_PHONE_MACS g) (otp_value g) (clock g) (timers g) (trace g).

Definition set_voltage (v : Py.float) (g : globals) : globals :=
  mkGlobals (otp_verified g) (lock_open g) (current_otp g)
    (status_characteristic g) (safe_status g) (battery_percent g) v
    (ALLOWED_PHONE_MACS g) (otp_value g) (clock g) (timers g) (trace g).

Definition set_ALLOWED_PHONE_MACS (l : list string) (g : globals) : globals :=
  mkGlobals (otp_verified g) (lock_open g) (current_otp g)
    (status_characteristic g) (safe_status g) (battery_percent g) (voltage g)
    l (otp_value g) (clock g) (timers g) (trace g).

Definition set_otp_value (v : list Byte.byte) (g : globals) : globals :=
  mkGlobals (otp_verified g) (lock_open g) (current_otp g)
    (status_characteristic g) (safe_status g) (battery_percent g) (voltage g)
    (ALLOWED_PHONE_MACS g) v (clock g) (timers g) (trace g).

Definition set_clock (t : Z) (g : globals) : globals :=
  mkGlobals (otp_verified g) (lock_open g) (current_otp g)
    (status_characteristic g) (safe_status g) (battery_percent g) (voltage g)
    (ALLOWED_PHONE_MACS g) (otp_value g) t (timers g) (trace g).

Definition set_timers (l : list Z) (g : globals) : globals :=
  mkGlobals (otp_verified g) (lock_open g) (current_otp g)
    (status_characteristic g) (safe_status g) (battery_percent g) (voltage g)
    (ALLOWED_PHONE_MACS g) (otp_value g) (clock g) l (trace g).

Definition emit (e : event) (g : globals) : globals :=
  mkGlobals (otp_verified g) (lock_open g) (current_otp g)
    (status_characteristic g) (safe_status g) (battery_percent g) (voltage g)
    (ALLOWED_PHONE_MACS g) (otp_value g) (clock g) (timers g)
    (trace g ++ [e]).

(** ** The monad of the handlers: globals and exceptions *)

Inductive outcome (A : Type) : Type :=
| Return (a : A) (g : globals)
| Raised (e : Py.exn) (g : globals).

Arguments Return {A} a g.
Arguments Raised {A} e g.

Definition M (A : Type) : Type := globals -> outcome A.

Definition ret {A} (a : A) : M A := fun g => Return a g.

Definition bind {A B} (m : M A) (k : A -> M B) : M B :=
  fun g => match m g with
           | Return a g' => k a g'
           | Raised e g' => Raised e g'
           end.

Definition raise {A} (e : Py.exn) : M A := fun g => Raised e g.

(** [try: body / except Exception: handler] *)
Definition try_except {A} (body : M A) (handler : Py.exn -> M A) : M A :=
  fun g => match body g with
           | Return a g' => Return a g'
           | Raised e g' => handler e g'
           end.

Definition lift {A} (r : Py.exn + A) : M A :=
  match r with inl e => raise e | inr a => ret a end.

(** a statement that only writes globals or the outside world *)
Definition exec (f : globals -> globals) : M unit := fun g => Return tt (f g).

Definition read {A} (f : globals -> A) : M A := fun g => Return (f g) g.

Declare Scope py_scope.
Delimit Scope py_scope with py.
Notation "x <- m ;; k" := (bind m (fun x => k))
  (at level 61, m at next level, right associativity) : py_scope.
Notation "m ;; k" := (bind m (fun _ => k))
  (at level 61, right associativity) : py_scope.
Local Open Scope py_scope.

(** the globals an outcome ends in, and what it returned *)
Definition final {A} (o : outcome A) : globals :=
  match o with Return _ g => g | Raised _ g => g end.

Definition returned {A} (o : outcome A) : option A :=
  match o with Return a _ => Some a | Raised _ _ => None end.

(** ** The status frame *)

Definition sum_bind {A B} (r : Py.exn + A) (k : A -> Py.exn + B)
  : Py.exn + B :=
  match r with inl e => inl e | inr a => k a end.

(** The six bytes that [StatusCharacteristic.ReadValue] and
    [StatusCharacteristic.update_status] both build from the globals
    (the two methods repeat the same statements).  [battery_percent] is
    an [int] in every assignment of the program, so [int(battery_percent)]
    is the identity. *)
Definition pack_status (otp_verified lock_open : bool)
    (battery_percent safe_status : Z) (voltage : Py.float)
  : Py.exn + list Z :=
  let verified_byte := if otp_verified then 1 else 0 in
  let lock_byte := if lock_open then 1 else 0 in
  let battery_byte := Z.max 0 (Z.min 100 battery_percent) in
  let status_byte := safe_status in
  sum_bind (Py.int_of_float (Py.fmul voltage (Py.float_of_Z 10)))
    (fun voltage_int =>
  let voltage_high := Z.land (Z.shiftr voltage_int 8) 255 in
  let voltage_low := Z.land voltage_int 255 in
  sum_bind (dbus_Byte verified_byte) (fun b0 =>
  sum_bind (dbus_Byte lock_byte) (fun b1 =>
  sum_bind (dbus_Byte battery_byte) (fun b2 =>
  sum_bind (dbus_Byte status_byte) (fun b3 =>
  sum_bind (dbus_Byte voltage_high) (fun b4 =>
  sum_bind (dbus_Byte voltage_low) (fun b5 =>
  inr [b0; b1; b2; b3; b4; b5]))))))).

Definition current_frame (g : globals) : Py.exn + list Z :=
  pack_status (otp_verified g) (lock_open g) (battery_percent g)
    (safe_status g) (voltage g).

(** [StatusCharacteristic.ReadValue]: [self] is the object that [main]
    stores in [status_characteristic]. *)
Definition ReadValue : M (list Z) :=
  status <- (fun g => lift (current_frame g) g) ;;
  exec (set_status_characteristic (Some status)) ;;
  ret status.

(** [StatusCharacteristic.update_status] *)
Definition update_status : M unit :=
  value <- (fun g => lift (current_frame g) g) ;;
  exec (set_status_characteristic (Some value)) ;;
  exec (emit (PropertiesChanged value)).

(** [if status_characteristic: status_characteristic.update_status()] *)
Definition notify_status_change : M unit :=
  fun g => match status_characteristic g with
           | Some _ => update_status g
           | None => Return tt g
           end.

(** ** Feedback, relay and timers *)

(** [display_message]: [lcd] is [None] in this program (the import of
    [CharLCD] is commented out, so the set-up falls into its [except]
    branch), which leaves the feedback line that is always printed. *)
Definition display_message (line1 line2 : string) : M unit :=
  exec (emit (Display line1 line2)).

Definition GPIO_output (pin : Z) (l : level) : M unit :=
  exec (emit (GpioOutput pin l)).

(** [time.sleep]: the handler blocks, the clock moves on. *)
Definition time_sleep (seconds : Z) : M unit :=
  exec (fun g => emit (Sleep seconds) (set_clock (clock g + seconds) g)).

(** [GLib.timeout_add_seconds(seconds, auto_close_lock)]: one more
    single-shot source; nothing is removed. *)
Definition timeout_add_seconds (seconds : Z) : M unit :=
  exec (fun g => emit (TimeoutAdd seconds)
                   (set_timers (timers g ++ [clock g + seconds]) g)).

Definition open_lock : M unit :=
  display_message "Opening Lock..." "Stand By" ;;
  GPIO_output RELAY_PIN HIGH ;;
  time_sleep 2 ;;
  exec (set_lock_open true) ;;
  display_message "Lock Opened!" "Remove Items" ;;
  notify_status_change ;;
  timeout_add_seconds 15.

Definition close_lock : M unit :=
  GPIO_output RELAY_PIN LOW ;;
  exec (set_lock_open false) ;;
  display_message "Lock Closed" "Ready" ;;
  notify_status_change.

Definition auto_close_lock : M bool :=
  is_open <- read lock_open ;;
  (if is_open : bool then
     close_lock ;;
     exec (set_otp_verified false) ;;
     notify_status_change
   else ret tt) ;;
  ret false.

(** ** OTP verification *)

Definition verify_otp (received_otp : string) : M bool :=
  display_message "Verifying OTP" received_otp ;;
  if (Py.len received_otp =? 6) && Py.isdigit received_otp then
    exec (set_current_otp (Some received_otp)) ;;
    exec (set_otp_verified true) ;;
    display_message "OTP Verified!" "Opening..." ;;
    notify_status_change ;;
    time_sleep 1 ;;
    open_lock ;;
    ret true
  else
    display_message "Invalid OTP" "Try Again" ;;
    ret false.

(** [OTPCharacteristic.WriteValue] *)
Definition WriteValue (value : list Byte.byte) : M unit :=
  let otp_code := Py.join_chr value in
  verify_otp otp_code ;;
  exec (set_otp_value value).

(** ** Health refresh *)

(** What the host answers when the health is sampled.  Reading and
    parsing [/proc/uptime] either raises or gives a float; running
    [vcgencmd] either raises (also when its output does not parse),
    exits with a non-zero code, or gives the core voltage. *)
Inductive vcgencmd_result : Type :=
| VcRaised
| VcExit
| VcVolts (core_voltage : Py.float).

Record host : Type := mkHost {
  proc_uptime : option Py.float;
  vcgencmd : vcgencmd_result
}.

Definition update_system_health (h : host) : M bool :=
  try_except
    (uptime_seconds <- lift (match proc_uptime h with
                             | Some f => inr f
                             | None => inl Py.OSError
                             end) ;;
     q <- lift (Py.int_of_float
                  (Py.fdiv uptime_seconds (Py.float_of_Z 3600))) ;;
     let drain := Z.min q 100 in
     exec (set_battery_percent (Z.max 0 (100 - drain))) ;;
     match vcgencmd h with
     | VcVolts core_voltage =>
         exec (set_voltage (Py.fmul core_voltage (Py.float_of_Z 10)))
     | VcExit => exec (set_voltage (Py.float_of_Z 12))
     | VcRaised => exec (set_voltage (Py.float_of_Z 12))
     end ;;
     exec (set_safe_status 1))
    (fun _ =>
     exec (set_battery_percent 100) ;;
     exec (set_voltage (Py.float_of_Z 12)) ;;
     exec (set_safe_status 1)) ;;
  ret true.

(** ** Start-up, main loop and shutdown *)

(** The globals when the module has been loaded. *)
Definition module_globals : globals :=
  mkGlobals false false None None 1 100 (Py.float_of_Z 12)
    ["FC:93:6B:B4:08:0D"; "A4:46:B4:2A:C1:F2"] [] 0 [] [].

(** [main] up to [mainloop.run()], with an adapter present: the status
    characteristic is created with its default value and stored in the
    global, and the health is sampled once. *)
Definition main_setup (h : host) : M unit :=
  display_message "Guardian Safe" "Initializing..." ;;
  exec (set_status_characteristic (Some [0; 0; 100; 1; 0; 120])) ;;
  display_message "Guardian Safe" "Ready" ;;
  update_system_health h ;;
  ret tt.

(** The [KeyboardInterrupt] branch of [main]; the two unregistrations
    touch no global and swallow their exceptions. *)
Definition shutdown : M unit :=
  display_message "Shutting Down" "" ;;
  close_lock.

(** The main loop sits idle until [deadline]: every pending
    [auto_close_lock] source that is due by then is dispatched once, in
    order, and removed (the callback returns [False]; an exception in a
    callback is reported by the loop and the source is dropped too). *)
Fixpoint dispatch_due (deadline : Z) (pending : list Z) (g : globals)
  : globals :=
  match pending with
  | [] => g
  | due :: rest =>
      if due <=? deadline then
        let g1 := set_timers rest (set_clock (Z.max (clock g) due) g) in
        dispatch_due deadline rest (final (auto_close_lock g1))
      else g
  end.

Definition idle (seconds : Z) (g : globals) : globals :=
  let deadline := clock g + seconds in
  let g' := dispatch_due deadline (timers g) g in
  set_clock (Z.max (clock g') deadline) g'.

(** What the main loop can be given to do. *)
Inductive input : Type :=
| OtpWrite (value : list Byte.byte)
| StatusRead
| HealthTick (h : host)
| Idle (seconds : Z).

(** One dispatch of the main loop; an exception of a handler goes back
    to the caller of the D-Bus method, the globals stay as they are at
    that point. *)
Definition step (g : globals) (i : input) : globals :=
  match i with
  | OtpWrite value => final (WriteValue value g)
  | StatusRead => final (ReadValue g)
  | HealthTick h => final (update_system_health h g)
  | Idle seconds => idle seconds g
  end.

Definition run (g : globals) (l : list input) : globals :=
  fold_left step l g.

(** The payload of an OTP write: the bytes of an ASCII string. *)
Definition payload (s : string) : list Byte.byte := list_byte_of_string s.

Definition healthy_host : host :=
  mkHost (Some (Py.float_of_Z 120)) (VcVolts (SFdiv Py.prec Py.emax (Py.float_of_Z 12) (Py.float_of_Z 10))).

Definition booted : globals := final (main_setup healthy_host module_globals).

(** * Vocabulary of the properties *)

Definition bool_byte (b : bool) : Z := if b then 1 else 0.

Definition clamp_percent (x : Z) : Z := Z.max 0 (Z.min 100 x).

(** The globals hold a health reading that fits a frame: [voltage * 10]
    is a finite float and [safe_status] fits a byte. *)
Definition frame_ready (g : globals) : bool :=
  match Py.int_of_float (Py.fmul (voltage g) (Py.float_of_Z 10)) with
  | inr _ => (0 <=? safe_status g) && (safe_status g <? 256)
  | inl _ => false
  end.

Definition voltage_tenths (g : globals) : Z :=
  match Py.int_of_float (Py.fmul (voltage g) (Py.float_of_Z 10)) with
  | inr vi => vi
  | inl _ => 0
  end.

Definition frame (v l : bool) (g : globals) : list Z :=
  [bool_byte v; bool_byte l; clamp_percent (battery_percent g);
   safe_status g;
   Z.land (Z.shiftr (voltage_tenths g) 8) 255;
   Z.land (voltage_tenths g) 255].

(** The sample as a whole fails when the uptime cannot be read or is not
    a finite number; a failing [vcgencmd] alone is absorbed by the inner
    handler. *)
Definition sample_fails (h : host) : bool :=
  match proc_uptime h with
  | None => true
  | Some u =>
      match Py.int_of_float (Py.fdiv u (Py.float_of_Z 3600)) with
      | inl _ => true
      | inr _ => false
      end
  end.

(** The frame only looks at the three health fields. *)
Definition same_health (g g' : globals) : Prop :=
  battery_percent g' = battery_percent g
  /\ safe_status g' = safe_status g
  /\ voltage g' = voltage g.

(** What a notification adds to the trace: the frame when the status
    characteristic is in place, nothing before [main] has stored it. *)
Definition notice (g : globals) (f : list Z) : list event :=
  match status_characteristic g with
  | Some _ => [PropertiesChanged f]
  | None => []
  end.

(** The globals [g'] that an accepted code [s] leaves behind [g]. *)
Definition accepted (s : string) (g g' : globals) : Prop :=
  otp_verified g' = true
  /\ lock_open g' = true
  /\ current_otp g' = Some s
  /\ same_health g g'
  /\ ALLOWED_PHONE_MACS g' = ALLOWED_PHONE_MACS g
  /\ otp_value g' = otp_value g
  /\ clock g' = clock g + 1 + 2
  /\ timers g' = timers g ++ [clock g + 1 + 2 + 15]
  /\ status_characteristic g' =
       match status_characteristic g with
       | Some _ => Some (frame true true g)
       | None => None
       end
  /\ trace g' =
       trace g ++
       [Display "Verifying OTP" s; Display "OTP Verified!" "Opening..."] ++
       notice g (frame true (lock_open g) g) ++
       [Sleep 1; Display "Opening Lock..." "Stand By";
        GpioOutput RELAY_PIN HIGH; Sleep 2;
        Display "Lock Opened!" "Remove Items"] ++
       notice g (frame true true g) ++
       [TimeoutAdd 15].

(** The guard of [verify_otp]. *)
Definition format_ok (s : string) : bool :=
  (Py.len s =? 6) && Py.isdigit s.

(** A code point below 128. *)
Definition char_is_ascii (c : ascii) : bool :=
  Z.of_nat (nat_of_ascii c) <? 128.

(** The payload B2 32 33 34 35 36: superscript two, then "23456". *)
Definition superscript_payload : list Byte.byte :=
  [Byte.xb2; Byte.x32; Byte.x33; Byte.x34; Byte.x35; Byte.x36].

(** Erase the stored code and the allow-list. *)
Definition forget_secrets (g : globals) : globals :=
  set_current_otp None (set_ALLOWED_PHONE_MACS [] g).

(** [n] calls of [verify_otp s] in a row: what each returned
    ([None] for a call that raised). *)
Fixpoint verify_repeatedly (n : nat) (s : string) (g : globals)
  : list (option bool) :=
  match n with
  | O => []
  | S n' =>
      let o := verify_otp s g in
      returned o :: verify_repeatedly n' s (final o)
  end.

(** What [verify_otp] returns, read off the payload; the globals only
    decide whether the notification can be built at all. *)
Definition verdict (s : string) (g : globals) : option bool :=
  if format_ok s then
    match status_characteristic g with
    | Some _ => if frame_ready g then Some true else None
    | None => Some true
    end
  else Some false.

(** Two accepted codes, the second one ten seconds after the first. *)
Definition two_codes : list input :=
  [OtpWrite (payload "123456"); Idle 7; OtpWrite (payload "123456")].

Definition SETTLE_DELAY : Z := 2.

(** A notification whose byte 1 (lock open) is 1. *)
Definition announces_open (e : event) : bool :=
  match e with
  | PropertiesChanged f =>
      match nth_error f 1 with
      | Some b => b =? 1
      | None => false
      end
  | _ => false
  end.

(** The events up to the settle delay, and those after it. *)
Fixpoint before_settle (evs : list event) : list event :=
  match evs with
  | [] => []
  | Sleep n :: r => if n =? SETTLE_DELAY then [] else Sleep n :: before_settle r
  | e :: r => e :: before_settle r
  end.

Fixpoint after_settle (evs : list event) : list event :=
  match evs with
  | [] => []
  | Sleep n :: r => if n =? SETTLE_DELAY then r else after_settle r
  | _ :: r => after_settle r
  end.

(** What a call added to the trace. *)
Definition emitted (g g' : globals) : list event :=
  skipn (List.length (trace g)) (trace g').

(** A host whose voltage reading, if any, still fits the frame once it
    has been scaled. *)
Definition host_ok (h : host) : bool :=
  match vcgencmd h with
  | VcVolts core_voltage =>
      match Py.int_of_float
              (Py.fmul (Py.fmul core_voltage (Py.float_of_Z 10))
                 (Py.float_of_Z 10)) with
      | inr _ => true
      | inl _ => false
      end
  | _ => true
  end.

Definition input_ok (i : input) : bool :=
  match i with
  | HealthTick h => host_ok h
  | _ => true
  end.

(** What the running controller keeps: the status characteristic is in
    place and the health reading fits a frame. *)
Definition serving (g : globals) : Prop :=
  frame_ready g = true /\ status_characteristic g <> None.

(** ** The D-Bus objects of the GATT application *)

(** [str(n)] of an [int]. *)
Definition str (n : Z) : string := NilZero.string_of_int (Z.to_int n).

(** The values that the property dicts hold. *)
Inductive variant : Type :=
| VString (s : string)
| VBoolean (b : bool)
| VStrings (l : list string)      (* flags *)
| VObjectPaths (l : list string)  (* dbus.Array(..., signature='o') *)
| VBytes (l : list Z).            (* dbus.Array(..., signature='y') *)

(** A [dict] with string keys: the items in insertion order. *)
Definition dict (V : Type) : Type := list (string * V).

(** [d[k] = v]: an existing key keeps its place and takes the new
    value, a new key goes to the end. *)
Fixpoint dict_set {V : Type} (k : string) (v : V) (d : dict V) : dict V :=
  match d with
  | [] => [(k, v)]
  | (k', v') :: r =>
      if String.eqb k' k then (k', v) :: r else (k', v') :: dict_set k v r
  end.

Definition properties : Type := dict (dict variant).

Definition GATT_SERVICE_IFACE : string := "org.bluez.GattService1".
Definition GATT_CHRC_IFACE : string := "org.bluez.GattCharacteristic1".
Definition SERVICE_UUID : string := "4fafc201-1fb5-459e-8fcc-c5c9c331914b".
Definition OTP_CHAR_UUID : string := "beb5483e-36e1-4688-b7f5-ea07361b26a8".
Definition STATUS_CHAR_UUID : string := "beb5483e-36e1-4688-b7f5-ea07361b26a9".
Definition PATH_BASE : string := "/org/bluez/guardian/service".

Record Characteristic : Type := mkCharacteristic {
  chrc_path : string;
  chrc_uuid : string;
  (** the path of [self.service] *)
  chrc_service : string;
  chrc_flags : list string;
  chrc_value : list Z
}.

Record Service : Type := mkService {
  srv_path : string;
  srv_uuid : string;
  srv_primary : bool;
  srv_characteristics : list Characteristic
}.

(** [Service.__init__] *)
Definition Service_init (index : Z) (uuid : string) (primary : bool)
  : Service :=
  mkService (PATH_BASE ++ str index) uuid primary [].

(** [Characteristic.__init__]: the value starts as the empty array. *)
Definition Characteristic_init (index : Z) (uuid : string)
    (flags : list string) (service : Service) : Characteristic :=
  mkCharacteristic (srv_path service ++ "/char" ++ str index) uuid
    (srv_path service) flags [].

Definition add_characteristic (service : Service) (c : Characteristic)
  : Service :=
  mkService (srv_path service) (srv_uuid service) (srv_primary service)
    (srv_characteristics service ++ [c]).

Definition get_characteristic_paths (service : Service) : list string :=
  map chrc_path (srv_characteristics service).

Definition Service_get_properties (service : Service) : properties :=
  [(GATT_SERVICE_IFACE,
    [("UUID", VString (srv_uuid service));
     ("Primary", VBoolean (srv_primary service));
     ("Characteristics", VObjectPaths (get_characteristic_paths service))])].

Definition Characteristic_get_properties (c : Characteristic) : properties :=
  [(GATT_CHRC_IFACE,
    [("Service", VString (chrc_service c));
     ("UUID", VString (chrc_uuid c));
     ("Flags", VStrings (chrc_flags c));
     ("Value", VBytes (chrc_value c))])].

(** [Application.GetManagedObjects], on the services of the
    application in the order they were added. *)
Definition GetManagedObjects (services : list Service) : dict properties :=
  fold_left
    (fun response service =>
       fold_left
         (fun response chrc =>
            dict_set (chrc_path chrc) (Characteristic_get_properties chrc)
              response)
         (srv_characteristics service)
         (dict_set (srv_path service) (Service_get_properties service)
            response))
    services [].

(** A service as a program builds it: [Service(bus, index, uuid,
    primary)], then for each entry of [chrcs] a
    [Characteristic(bus, index, uuid, flags, service)] that is added to
    that service. *)
Definition build_service
    (blueprint : Z * string * bool * list (Z * string * list string))
  : Service :=
  let '(index, uuid, primary, chrcs) := blueprint in
  fold_left
    (fun service c =>
       let '(cindex, cuuid, flags) := c in
       add_characteristic service
         (Characteristic_init cindex cuuid flags service))
    chrcs (Service_init index uuid primary).

(** What each object contributes to [GetManagedObjects]. *)
Definition service_entries (service : Service) : dict properties :=
  (srv_path service, Service_get_properties service)
  :: map (fun c => (chrc_path c, Characteristic_get_properties c))
       (srv_characteristics service).

(** The application of [main] as it stands with globals [g]: one
    service, holding the OTP characteristic and the status
    characteristic with their current values. *)
Definition main_services (g : globals) : list Service :=
  let service := Service_init 0 SERVICE_UUID true in
  let otp_chrc :=
    mkCharacteristic (srv_path service ++ "/char" ++ str 0) OTP_CHAR_UUID
      (srv_path service) ["write"; "write-without-response"]
      (map (fun b => Z.of_N (Byte.to_N b)) (otp_value g)) in
  let status_chrc :=
    mkCharacteristic (srv_path service ++ "/char" ++ str 1) STATUS_CHAR_UUID
      (srv_path service) ["read"; "notify"]
      (match status_characteristic g with Some f => f | None => [] end) in
  [add_characteristic (add_characteristic service otp_chrc) status_chrc].

(** ** Vocabulary of the further properties *)

(** [isdigit] read on the byte that [chr] turns into the character. *)
Definition byte_isdigit (b : Byte.byte) : bool :=
  let n := Z.of_N (Byte.to_N b) in
  ((48 <=? n) && (n <=? 57)) || (n =? 178) || (n =? 179) || (n =? 185).

(** The payloads that pass the guard of [verify_otp]: six bytes, each a
    digit in the sense of [isdigit]. *)
Definition bytes_ok (value : list Byte.byte) : bool :=
  (Z.of_nat (List.length value) =? 6) && forallb byte_isdigit value.

(** The sign bit of a float that is below zero. *)
Definition float_negative (x : Py.float) : bool :=
  match x with
  | S754_infinity s => s
  | S754_finite s _ _ => s
  | _ => false
  end.

Definition uptime_not_negative (h : host) : bool :=
  match proc_uptime h with
  | Some u => negb (float_negative u)
  | None => true
  end.

(** The cached value of the status characteristic shows the two flags as
    they are. *)
Definition flags_cached (g : globals) : Prop :=
  exists f, status_characteristic g = Some f
    /\ nth_error f 0 = Some (bool_byte (otp_verified g))
    /\ nth_error f 1 = Some (bool_byte (lock_open g)).

(** What holds between two dispatches of the main loop. *)
Definition steady (g : globals) : Prop :=
  serving g
  /\ otp_verified g = lock_open g
  /\ (lock_open g = true -> timers g <> [])
  /\ Forall (fun due => due <= clock g + 15) (timers g)
  /\ flags_cached g.

(** The globals when [main] reaches [mainloop.run()] on host [h]. *)
Definition started (h : host) : globals :=
  final (main_setup h module_globals).

Definition GATT_MANAGER_IFACE : string := "org.bluez.GattManager1".

(** [find_adapter]: [objects] are the items of the dict that
    [GetManagedObjects] returned, in iteration order, each object path
    with the interface names that are the keys of its [props]. *)
Fixpoint find_adapter (objects : list (string * list string))
  : option string :=
  match objects with
  | [] => None
  | (o, props) :: rest =>
      if existsb (String.eqb GATT_MANAGER_IFACE) props then Some o
      else find_adapter rest
  end.

(** [main] up to [mainloop.run()]: [if not adapter] holds of [None] and
    of the empty path, and [main] then returns at once. *)
Definition main (objects : list (string * list string)) (h : host)
  : M unit :=
  match find_adapter objects with
  | None => ret tt
  | Some adapter =>
      if String.eqb adapter "" then ret tt else main_setup h
  end.

(** No character of [s] is a slash. *)
Definition no_slash (s : string) : bool :=
  Py.str_forall (fun c => negb (Ascii.eqb c "/")) s.

(** The object path of service [i], or of characteristic [j] of
    service [i]. *)
Definition object_path (k : Z * option Z) : string :=
  match k with
  | (i, None) => PATH_BASE ++ str i
  | (i, Some j) => (PATH_BASE ++ str i) ++ "/char" ++ str j
  end.

(** The objects that a list of blueprints asks for. *)
Definition blueprint_keys
    (blueprint : Z * string * bool * list (Z * string * list string))
  : list (Z * option Z) :=
  let '(index, _, _, chrcs) := blueprint in
  (index, None) :: map (fun c => (index, Some (fst (fst c)))) chrcs.

Definition blueprint_index
    (blueprint : Z * string * bool * list (Z * string * list string)) : Z :=
  fst (fst (fst blueprint)).

Definition blueprint_chrc_indices
    (blueprint : Z * string * bool * list (Z * string * list string))
  : list Z :=
  map (fun c => fst (fst c)) (snd blueprint).

(** One assignment of [GetManagedObjects]. *)
Definition set_entry (d : dict properties) (kv : string * properties)
  : dict properties :=
  dict_set (fst kv) (snd kv) d.

(** Where the relay stands, read off the events: closed, driven high
    but not yet settled, or high for at least the settle delay. *)
Inductive phase : Type := Closed | Driven | Settled.

Definition phase_step (p : phase) (e : event) : phase :=
  match e with
  | GpioOutput _ LOW => Closed
  | GpioOutput _ HIGH => match p with Settled => Settled | _ => Driven end
  | Sleep n =>
      match p with
      | Driven => if SETTLE_DELAY <=? n then Settled else Driven
      | _ => p
      end
  | _ => p
  end.

Definition phase_after (p : phase) (evs : list event) : phase :=
  fold_left phase_step evs p.

(** Every notification with lock_open = 1 is sent while the relay is
    settled. *)
Fixpoint announce_ok (p : phase) (evs : list event) : bool :=
  match evs with
  | [] => true
  | e :: r =>
      (if announces_open e
       then match p with Settled => true | _ => false end
       else true)
      && announce_ok (phase_step p e) r
  end.

(** The trace so far is in order and ends in the phase that
    [lock_open] says. *)
Definition trace_in_order (g : globals) : Prop :=
  announce_ok Closed (trace g) = true
  /\ phase_after Closed (trace g)
     = (if lock_open g then Settled else Closed).

(** * Properties *)

(** ** The frame as a total function, where it is defined *)

Lemma dbus_Byte_inr x : 0 <= x < 256 -> dbus_Byte x = inr x.
Proof.
  intros [H0 H1]. unfold dbus_Byte.
  apply Z.leb_le in H0. apply Z.ltb_lt in H1.
  now rewrite H0, H1.
Qed.

Lemma land_255_range x : 0 <= Z.land x 255 < 256.
Proof.
  change 255 with (Z.ones 8). rewrite Z.land_ones by lia.
  apply Z.mod_pos_bound. reflexivity.
Qed.

Lemma clamp_percent_range x : 0 <= clamp_percent x <= 100.
Proof. unfold clamp_percent. lia. Qed.

Lemma bool_byte_range b : 0 <= bool_byte b < 256.
Proof. destruct b; cbn; lia. Qed.

Lemma pack_status_inr v l bat safe volt vi :
  Py.int_of_float (Py.fmul volt (Py.float_of_Z 10)) = inr vi ->
  0 <= safe < 256 ->
  pack_status v l bat safe volt =
  inr [bool_byte v; bool_byte l; clamp_percent bat; safe;
       Z.land (Z.shiftr vi 8) 255; Z.land vi 255].
Proof.
  intros Hvi Hsafe. unfold pack_status. rewrite Hvi.
  cbv beta iota delta [sum_bind].
  fold (bool_byte v). fold (bool_byte l). fold (clamp_percent bat).
  rewrite (dbus_Byte_inr (bool_byte v)) by apply bool_byte_range.
  rewrite (dbus_Byte_inr (bool_byte l)) by apply bool_byte_range.
  rewrite (dbus_Byte_inr (clamp_percent bat))
    by (pose proof (clamp_percent_range bat); lia).
  rewrite (dbus_Byte_inr safe) by assumption.
  rewrite !dbus_Byte_inr by apply land_255_range.
  reflexivity.
Qed.

Lemma frame_ready_inv g :
  frame_ready g = true ->
  Py.int_of_float (Py.fmul (voltage g) (Py.float_of_Z 10))
    = inr (voltage_tenths g)
  /\ 0 <= safe_status g < 256.
Proof.
  unfold frame_ready, voltage_tenths.
  destruct (Py.int_of_float _) as [e | vi]; [discriminate |].
  intros H. apply andb_true_iff in H. destruct H as [H0 H1].
  apply Z.leb_le in H0. apply Z.ltb_lt in H1. split; [reflexivity | lia].
Qed.

Lemma pack_status_ready g v l :
  frame_ready g = true ->
  pack_status v l (battery_percent g) (safe_status g) (voltage g)
  = inr (frame v l g).
Proof.
  intros H. destruct (frame_ready_inv g H) as [Hvi Hs].
  unfold frame. now apply pack_status_inr.
Qed.

(** ** C7: the status encoding *)

(** C7.  The status encoding is the function [pack_status] of the five
    values; where [int(voltage * 10)] exists (value [vi]) and the safety
    status fits a byte, it yields exactly six bytes: the two 0/1 flags,
    the battery percent clamped into 0..100 (so -5 gives 0 and 150 gives
    100), the safety status, then the high byte [(vi >> 8) & 0xFF] and
    the low byte [vi & 0xFF] of the voltage in tenths.  Both the status
    read and the notification carry this frame. *)
Theorem C7_status_encoding
    (v l : bool) (bat safe : Z) (volt : Py.float) (vi : Z) :
  Py.int_of_float (Py.fmul volt (Py.float_of_Z 10)) = inr vi ->
  0 <= safe < 256 ->
  (exists b0 b1 b2 b3 b4 b5,
     pack_status v l bat safe volt = inr [b0; b1; b2; b3; b4; b5] /\
     b0 = (if v then 1 else 0) /\
     b1 = (if l then 1 else 0) /\
     0 <= b2 <= 100 /\
     (bat <= 0 -> b2 = 0) /\
     (0 <= bat <= 100 -> b2 = bat) /\
     (100 <= bat -> b2 = 100) /\
     b3 = safe /\
     b4 = (vi / 256) mod 256 /\
     b5 = vi mod 256) /\
  (exists f, pack_status v l (-5) safe volt = inr f /\
             List.length f = 6%nat /\ nth_error f 2 = Some 0) /\
  (exists f, pack_status v l 150 safe volt = inr f /\
             List.length f = 6%nat /\ nth_error f 2 = Some 100) /\
  (forall g f, current_frame g = inr f ->
     returned (ReadValue g) = Some f /\
     trace (final (update_status g)) = trace g ++ [PropertiesChanged f]).
Proof.
  intros Hvi Hsafe.
  repeat split.
  - exists (bool_byte v), (bool_byte l), (clamp_percent bat), safe,
      (Z.land (Z.shiftr vi 8) 255), (Z.land vi 255).
    rewrite (pack_status_inr v l bat safe volt vi Hvi Hsafe).
    unfold clamp_percent.
    repeat split; try lia.
    + rewrite Z.shiftr_div_pow2 by lia.
      change 255 with (Z.ones 8). now rewrite Z.land_ones by lia.
    + change 255 with (Z.ones 8). now rewrite Z.land_ones by lia.
  - eexists. rewrite (pack_status_inr v l (-5) safe volt vi Hvi Hsafe).
    repeat split.
  - eexists. rewrite (pack_status_inr v l 150 safe volt vi Hvi Hsafe).
    repeat split.
  - unfold ReadValue, bind. rewrite H. reflexivity.
  - unfold update_status, bind. rewrite H. reflexivity.
Qed.

Lemma C7_status_encoding_witness :
  exists f, pack_status true false 150 1 (Py.float_of_Z 12) = inr f /\
            f = [1; 0; 100; 1; 0; 120].
Proof.
  destruct (C7_status_encoding true false 150 1 (Py.float_of_Z 12) 120)
    as [_ [_ [[f [Hf [_ _]]] _]]].
  - vm_compute. reflexivity.
  - lia.
  - exists f. split; [exact Hf |].
    vm_compute in Hf. injection Hf as <-. reflexivity.
Defined.

(** A voltage above 25.5 V shows the two voltage bytes at work:
    300.0 V is 3000 tenths, 0x0BB8. *)
Example pack_status_300V :
  pack_status false true 42 2 (Py.float_of_Z 300) = inr [0; 1; 42; 2; 11; 184].
Proof. vm_compute. reflexivity. Qed.

(** ** C9: reading the status *)

Lemma ReadValue_eq g :
  ReadValue g =
  match current_frame g with
  | inr f => Return f (set_status_characteristic (Some f) g)
  | inl e => Raised e g
  end.
Proof.
  unfold ReadValue, bind. destruct (current_frame g); reflexivity.
Qed.

(** C9.  A status read returns the frame packed from the current
    globals (or raises where that frame does not exist), leaves
    [otp_verified], [lock_open] and the three health fields as they were
    (as well as the stored code, the clock, the timers and the trace:
    only the characteristic's cached value is written), and a second
    read right after it gives the same result. *)
Theorem C9_read_is_pure_and_idempotent (g : globals) :
  let o := ReadValue g in
  returned o = match current_frame g with inr f => Some f | inl _ => None end
  /\ otp_verified (final o) = otp_verified g
  /\ lock_open (final o) = lock_open g
  /\ battery_percent (final o) = battery_percent g
  /\ voltage (final o) = voltage g
  /\ safe_status (final o) = safe_status g
  /\ current_otp (final o) = current_otp g
  /\ clock (final o) = clock g
  /\ timers (final o) = timers g
  /\ trace (final o) = trace g
  /\ returned (ReadValue (final o)) = returned o
  /\ final (ReadValue (final o)) = final o.
Proof.
  cbv zeta. rewrite ReadValue_eq.
  destruct (current_frame g) as [e | f] eqn:E; cbn [final returned].
  - rewrite ReadValue_eq, E. repeat split.
  - rewrite ReadValue_eq.
    assert (E' : current_frame (set_status_characteristic (Some f) g) = inr f)
      by exact E.
    rewrite E'. repeat split.
Qed.

(** ** C8: the health refresh *)

(** C8.  The health refresh never raises and returns [True]; it leaves
    [lock_open], [otp_verified] and every global other than the three
    health fields untouched, and emits nothing.  When the sample fails
    the reading becomes the default: battery 100, voltage 12.0, safety 1
    (active). *)
Theorem C8_health_refresh_frame (h : host) (g : globals) :
  exists g', update_system_health h g = Return true g'
    /\ lock_open g' = lock_open g
    /\ otp_verified g' = otp_verified g
    /\ current_otp g' = current_otp g
    /\ status_characteristic g' = status_characteristic g
    /\ ALLOWED_PHONE_MACS g' = ALLOWED_PHONE_MACS g
    /\ otp_value g' = otp_value g
    /\ clock g' = clock g
    /\ timers g' = timers g
    /\ trace g' = trace g
    /\ safe_status g' = 1
    /\ if sample_fails h
       then battery_percent g' = 100 /\ voltage g' = Py.float_of_Z 12
       else 0 <= battery_percent g'.
Proof.
  unfold update_system_health, try_except, bind, sample_fails.
  destruct h as [[u |] vcr]; cbn [proc_uptime vcgencmd lift].
  - unfold raise, ret.
    destruct (Py.int_of_float (Py.fdiv u (Py.float_of_Z 3600))) as [e | q].
    + eexists. split; [reflexivity |]. repeat split.
    + destruct vcr; eexists; (split; [reflexivity |]);
        cbn -[Z.max Z.min Z.sub]; repeat split; lia.
  - eexists. split; [reflexivity |]. repeat split.
Qed.

(** Uptime unreadable, or not a number: the default reading. *)
Example update_system_health_defaults (vc : vcgencmd_result) (g : globals) :
  let g1 := final (update_system_health (mkHost None vc) g) in
  let g2 := final (update_system_health (mkHost (Some S754_nan) vc) g) in
  (battery_percent g1, voltage g1, safe_status g1)
    = (100, Py.float_of_Z 12, 1)
  /\ (battery_percent g2, voltage g2, safe_status g2)
    = (100, Py.float_of_Z 12, 1).
Proof. split; reflexivity. Qed.

(** An hour and a half of uptime drains one percent; a core voltage of
    1.25 V is shown as 12.5 V. *)
Example update_system_health_sample :
  let h := mkHost (Some (Py.float_of_Z 5400))
                  (VcVolts (Py.fdiv (Py.float_of_Z 5) (Py.float_of_Z 4))) in
  let g' := final (update_system_health h module_globals) in
  battery_percent g' = 99 /\ current_frame g' = inr [0; 0; 99; 1; 0; 125].
Proof. vm_compute. split; reflexivity. Qed.

(** ** Running the handlers on symbolic globals *)

Lemma all_decimal_isdigit s :
  Py.len s = 6 -> Py.all_decimal s = true -> Py.isdigit s = true.
Proof.
  unfold Py.len, Py.isdigit, Py.all_decimal.
  destruct s as [| c r]; [cbn; lia |].
  intros _. generalize (String c r). clear.
  induction s as [| c r IH]; cbn; [reflexivity |].
  intros H. apply andb_true_iff in H. destruct H as [Hc Hr].
  rewrite (IH Hr), andb_true_r.
  unfold Py.char_isdecimal in Hc. unfold Py.char_isdigit. now rewrite Hc.
Qed.

(** Evaluate a handler whose frame computations are given by [P]. *)
Ltac py_run P :=
  repeat (first
    [ rewrite P
    | progress cbn -[pack_status frame Z.add Z.max Z.min Py.float_of_Z
                     frame_ready Py.len Py.isdigit] ]).

(** Name the fields of [g] and turn [frame_ready g] into the equation
    [P] that evaluates every [pack_status] on them. *)
Ltac py_globals g Hr P :=
  pose proof (fun v l => pack_status_ready g v l Hr) as P;
  destruct g as [v0 l0 co sc ss bp vo macs ov ck tm tr];
  cbn [battery_percent safe_status voltage] in P.

Ltac py_unfold :=
  unfold verify_otp, auto_close_lock, open_lock, close_lock, shutdown,
    notify_status_change, update_status, display_message, GPIO_output,
    time_sleep, timeout_add_seconds, read, exec, ret, bind, current_frame.

Lemma frame_ready_same_health g g' :
  same_health g g' -> frame_ready g' = frame_ready g.
Proof.
  intros [_ [Hs Hv]]. unfold frame_ready. now rewrite Hs, Hv.
Qed.

Lemma frame_same_health g g' v l :
  same_health g g' -> frame v l g' = frame v l g.
Proof.
  intros [Hb [Hs Hv]]. unfold frame, voltage_tenths. now rewrite Hb, Hs, Hv.
Qed.

Lemma current_frame_ready g :
  frame_ready g = true ->
  current_frame g = inr (frame (otp_verified g) (lock_open g) g).
Proof. intros H. unfold current_frame. now apply pack_status_ready. Qed.

Lemma ReadValue_ready g :
  frame_ready g = true ->
  ReadValue g =
  Return (frame (otp_verified g) (lock_open g) g)
    (set_status_characteristic
       (Some (frame (otp_verified g) (lock_open g) g)) g).
Proof.
  intros H. rewrite ReadValue_eq. now rewrite (current_frame_ready g H).
Qed.

Lemma verify_otp_accepts s g :
  Py.len s = 6 -> Py.isdigit s = true -> frame_ready g = true ->
  exists g', verify_otp s g = Return true g' /\ accepted s g g'.
Proof.
  intros Hl Hi Hr.
  py_globals g Hr P.
  py_unfold. cbn -[pack_status frame Py.len Py.isdigit Z.add].
  rewrite Hl, Hi. unfold accepted, same_health, notice.
  destruct sc as [c |]; py_run P;
    (eexists; split; [reflexivity |]);
    cbn -[frame Z.add]; rewrite <- ?app_assoc; repeat split.
Qed.

(** ** C2: a valid code opens the lock *)

(** C2.  For a payload of exactly six ASCII decimal digits (and globals
    whose health reading fits a frame), [verify_otp] returns [True],
    leaves [otp_verified] and [lock_open] both true, and the next status
    read returns six bytes whose byte 0 is 1. *)
Theorem C2_valid_otp_opens (s : string) (g : globals) :
  Py.len s = 6 -> Py.all_decimal s = true -> frame_ready g = true ->
  exists g', verify_otp s g = Return true g'
    /\ otp_verified g' = true
    /\ lock_open g' = true
    /\ exists f g'', ReadValue g' = Return f g''
         /\ List.length f = 6%nat /\ nth_error f 0 = Some 1.
Proof.
  intros Hl Hd Hr.
  pose proof (all_decimal_isdigit s Hl Hd) as Hi.
  destruct (verify_otp_accepts s g Hl Hi Hr) as [g' [Hrun Hacc]].
  destruct Hacc as [Hv [Ho [_ [Hh _]]]].
  exists g'. repeat split; try assumption.
  assert (Hr' : frame_ready g' = true)
    by now rewrite (frame_ready_same_health g g' Hh).
  rewrite (ReadValue_ready g' Hr'), Hv, Ho.
  do 2 eexists. repeat split.
Qed.

Lemma C2_valid_otp_opens_witness :
  exists g', verify_otp "123456" booted = Return true g'
    /\ otp_verified g' = true
    /\ lock_open g' = true
    /\ exists f g'', ReadValue g' = Return f g''
         /\ List.length f = 6%nat /\ nth_error f 0 = Some 1.
Proof.
  apply (C2_valid_otp_opens "123456" booted); vm_compute; reflexivity.
Defined.

(** The same through the characteristic: the six bytes "123456". *)
Example WriteValue_123456 :
  let g' := final (WriteValue (payload "123456") booted) in
  otp_verified g' = true /\ lock_open g' = true
  /\ returned (ReadValue g') = Some [1; 1; 100; 1; 0; 120].
Proof. vm_compute. repeat split. Qed.

(** ** C4: the auto-close deadline *)

(** C4.  When [auto_close_lock] fires while the lock is open (with the
    status characteristic in place and a health reading that fits a
    frame), the relay is driven low, [lock_open] and [otp_verified] end
    false, and notifications are emitted, the last one with bytes 0 and
    1 both 0; the frame had byte 1 equal to 1 before and has bytes 0 and
    1 equal to 0 after. *)
Theorem C4_auto_close_fires (g : globals) (c : list Z) :
  lock_open g = true ->
  status_characteristic g = Some c ->
  frame_ready g = true ->
  exists g', auto_close_lock g = Return false g'
    /\ lock_open g' = false
    /\ otp_verified g' = false
    /\ trace g' = trace g ++
         [GpioOutput RELAY_PIN LOW; Display "Lock Closed" "Ready";
          PropertiesChanged (frame (otp_verified g) false g);
          PropertiesChanged (frame false false g)]
    /\ current_frame g = inr (frame (otp_verified g) true g)
    /\ nth_error (frame (otp_verified g) true g) 1 = Some 1
    /\ current_frame g' = inr (frame false false g)
    /\ status_characteristic g' = Some (frame false false g)
    /\ nth_error (frame false false g) 0 = Some 0
    /\ nth_error (frame false false g) 1 = Some 0
    /\ timers g' = timers g.
Proof.
  intros Hopen Hsc Hr.
  py_globals g Hr P. cbn in Hopen, Hsc. subst l0 sc.
  py_unfold. py_run P.
  eexists. split; [reflexivity |].
  cbn -[frame pack_status]. rewrite <- !app_assoc. cbn -[frame pack_status].
  rewrite !P. repeat split.
Qed.

Lemma C4_auto_close_fires_witness :
  let g := final (verify_otp "123456" booted) in
  exists g', auto_close_lock g = Return false g'
    /\ lock_open g' = false /\ otp_verified g' = false
    /\ status_characteristic g' = Some [0; 0; 100; 1; 0; 120].
Proof.
  cbv zeta.
  destruct (C4_auto_close_fires (final (verify_otp "123456" booted))
              [1; 1; 100; 1; 0; 120])
    as [g' [H1 [H2 [H3 [_ [_ [_ [_ [H4 _]]]]]]]]].
  - vm_compute. reflexivity.
  - vm_compute. reflexivity.
  - vm_compute. reflexivity.
  - exists g'. repeat split; assumption.
Defined.

(** ** C1: what the format check lets through *)

(** When the guard fails nothing but the two feedback lines happens. *)
Lemma verify_otp_rejects s g :
  format_ok s = false ->
  verify_otp s g =
  Return false (emit (Display "Invalid OTP" "Try Again")
                  (emit (Display "Verifying OTP" s) g)).
Proof.
  unfold format_ok. intros H. py_unfold.
  cbn -[Py.len Py.isdigit]. rewrite H. reflexivity.
Qed.

Lemma verify_otp_rejects_frame s g :
  format_ok s = false ->
  let g' := final (verify_otp s g) in
  returned (verify_otp s g) = Some false
  /\ otp_verified g' = otp_verified g
  /\ lock_open g' = lock_open g
  /\ current_otp g' = current_otp g
  /\ status_characteristic g' = status_characteristic g
  /\ timers g' = timers g
  /\ clock g' = clock g
  /\ trace g' = trace g ++ [Display "Verifying OTP" s;
                            Display "Invalid OTP" "Try Again"].
Proof.
  intros H. cbv zeta. rewrite (verify_otp_rejects s g H).
  cbn. rewrite <- app_assoc. repeat split.
Qed.

(** On code points below 128 [isdigit] is the decimal-digit test, so an
    ASCII payload is rejected as soon as its length is not 6 or one of
    its characters is not a decimal digit. *)
Lemma isdigit_ascii s :
  Py.str_forall char_is_ascii s = true ->
  Py.str_forall Py.char_isdigit s = Py.all_decimal s.
Proof.
  unfold Py.all_decimal.
  induction s as [| c r IH]; cbn; [reflexivity |].
  intros H. apply andb_true_iff in H. destruct H as [Hc Hr].
  rewrite (IH Hr). f_equal.
  unfold char_is_ascii in Hc. apply Z.ltb_lt in Hc.
  unfold Py.char_isdigit, Py.char_isdecimal.
  destruct (Z.eqb_spec (Z.of_nat (nat_of_ascii c)) 178); [lia |].
  destruct (Z.eqb_spec (Z.of_nat (nat_of_ascii c)) 179); [lia |].
  destruct (Z.eqb_spec (Z.of_nat (nat_of_ascii c)) 185); [lia |].
  now rewrite !orb_false_r.
Qed.

Lemma verify_otp_rejects_ascii s g :
  Py.str_forall char_is_ascii s = true ->
  Py.len s <> 6 \/ Py.all_decimal s = false ->
  returned (verify_otp s g) = Some false
  /\ otp_verified (final (verify_otp s g)) = otp_verified g
  /\ lock_open (final (verify_otp s g)) = lock_open g
  /\ timers (final (verify_otp s g)) = timers g.
Proof.
  intros Ha H.
  assert (Hf : format_ok s = false).
  { unfold format_ok. destruct H as [H | H].
    - apply Z.eqb_neq in H. now rewrite H.
    - apply andb_false_iff. right. unfold Py.isdigit.
      destruct s; [reflexivity |]. now rewrite (isdigit_ascii _ Ha). }
  destruct (verify_otp_rejects_frame s g Hf) as [H1 [H2 [H3 [_ [_ [H4 _]]]]]].
  repeat split; assumption.
Qed.

(** C1, on the payload B2 32 33 34 35 36.  Its decoded string has six
    characters, the first of which (U+00B2) is not a decimal digit, yet
    [isdigit] holds of it: [verify_otp] returns [True], [otp_verified]
    and [lock_open] go from false to true, the relay is driven high and
    an auto-close timer is armed. *)
Theorem C1_superscript_digit_is_accepted :
  let s := Py.join_chr superscript_payload in
  let o := verify_otp s booted in
  Py.len s = 6
  /\ Py.all_decimal s = false
  /\ Py.isdigit s = true
  /\ returned o = Some true
  /\ (otp_verified booted = false /\ otp_verified (final o) = true)
  /\ (lock_open booted = false /\ lock_open (final o) = true)
  /\ (timers booted = [] /\ timers (final o) = [18])
  /\ skipn 2 (trace (final o)) =
       [Display "Verifying OTP" s; Display "OTP Verified!" "Opening...";
        PropertiesChanged [1; 0; 100; 1; 0; 120]; Sleep 1;
        Display "Opening Lock..." "Stand By"; GpioOutput RELAY_PIN HIGH;
        Sleep 2; Display "Lock Opened!" "Remove Items";
        PropertiesChanged [1; 1; 100; 1; 0; 120]; TimeoutAdd 15].
Proof. vm_compute. repeat split. Qed.

(** ** C5: the explicit close *)

(** [close_lock] never writes [otp_verified], whatever happens. *)
Lemma close_lock_keeps_otp_verified g :
  otp_verified (final (close_lock g)) = otp_verified g
  /\ lock_open (final (close_lock g)) = false.
Proof.
  destruct g as [v0 l0 co sc ss bp vo macs ov ck tm tr].
  py_unfold. cbn -[pack_status].
  destruct sc as [c |]; cbn -[pack_status]; [| split; reflexivity].
  destruct (pack_status v0 false bp ss vo); split; reflexivity.
Qed.

(** C5, on the shutdown that follows an accepted code.  The lock is
    closed and the relay driven low, but [otp_verified] is still true,
    and the notification sent on the way out says verified = 1 with
    lock = 0; the auto-close path resets the flag in that situation. *)
Theorem C5_shutdown_keeps_otp_verified :
  let g := final (verify_otp "123456" booted) in
  let o := shutdown g in
  (otp_verified g = true /\ lock_open g = true)
  /\ returned o = Some tt
  /\ lock_open (final o) = false
  /\ otp_verified (final o) = true
  /\ skipn (List.length (trace g)) (trace (final o)) =
       [Display "Shutting Down" ""; GpioOutput RELAY_PIN LOW;
        Display "Lock Closed" "Ready";
        PropertiesChanged [1; 0; 100; 1; 0; 120]]
  /\ otp_verified (final (auto_close_lock g)) = false.
Proof. vm_compute. repeat split. Qed.

(** ** C10: the verdict depends on the payload only *)

Lemma pack_status_not_ready g :
  frame_ready g = false ->
  exists e, forall v l,
    pack_status v l (battery_percent g) (safe_status g) (voltage g) = inl e.
Proof.
  unfold frame_ready, pack_status.
  destruct (Py.int_of_float _) as [e | vi].
  - intros _. exists e. reflexivity.
  - intros H. exists Py.ValueError. intros v l.
    cbv beta iota delta [sum_bind].
    fold (bool_byte v). fold (bool_byte l).
    fold (clamp_percent (battery_percent g)).
    rewrite (dbus_Byte_inr (bool_byte v)) by apply bool_byte_range.
    rewrite (dbus_Byte_inr (bool_byte l)) by apply bool_byte_range.
    rewrite (dbus_Byte_inr (clamp_percent _))
      by (pose proof (clamp_percent_range (battery_percent g)); lia).
    unfold dbus_Byte at 1. now rewrite H.
Qed.

(** The first notification of an accepted code cannot be built: the
    call raises with the code stored and the flag set, nothing else. *)
Lemma verify_otp_raises s g c :
  format_ok s = true ->
  status_characteristic g = Some c ->
  frame_ready g = false ->
  exists e,
    verify_otp s g =
    Raised e (emit (Display "OTP Verified!" "Opening...")
                (set_otp_verified true
                   (set_current_otp (Some s)
                      (emit (Display "Verifying OTP" s) g)))).
Proof.
  unfold format_ok. intros Hf Hsc Hr.
  destruct (pack_status_not_ready g Hr) as [e P]. exists e.
  destruct g as [v0 l0 co sc ss bp vo macs ov ck tm tr].
  cbn [battery_percent safe_status voltage] in P.
  cbn in Hsc. subst sc.
  py_unfold. cbn -[pack_status Py.len Py.isdigit].
  rewrite Hf. cbn -[pack_status]. rewrite P. reflexivity.
Qed.

(** Before [main] has stored the characteristic nothing is notified, so
    nothing can fail. *)
Lemma verify_otp_accepts_silent s g :
  format_ok s = true ->
  status_characteristic g = None ->
  exists g', verify_otp s g = Return true g' /\ accepted s g g'.
Proof.
  unfold format_ok. intros Hf Hsc.
  destruct g as [v0 l0 co sc ss bp vo macs ov ck tm tr].
  cbn in Hsc. subst sc.
  py_unfold. cbn -[pack_status frame Py.len Py.isdigit Z.add].
  rewrite Hf. cbn -[pack_status frame Z.add].
  eexists. split; [reflexivity |].
  unfold accepted, same_health, notice.
  cbn -[frame Z.add]. rewrite <- ?app_assoc. repeat split.
Qed.

Lemma format_ok_inv s :
  format_ok s = true -> Py.len s = 6 /\ Py.isdigit s = true.
Proof.
  unfold format_ok. intros H. apply andb_true_iff in H.
  destruct H as [H1 H2]. apply Z.eqb_eq in H1. now split.
Qed.

Lemma returned_verify_otp s g : returned (verify_otp s g) = verdict s g.
Proof.
  unfold verdict.
  destruct (format_ok s) eqn:Hf.
  - destruct (status_characteristic g) as [c |] eqn:Hsc.
    + destruct (frame_ready g) eqn:Hr.
      * destruct (format_ok_inv s Hf) as [Hl Hi].
        destruct (verify_otp_accepts s g Hl Hi Hr) as [g' [-> _]].
        reflexivity.
      * destruct (verify_otp_raises s g c Hf Hsc Hr) as [e ->].
        reflexivity.
    + destruct (verify_otp_accepts_silent s g Hf Hsc) as [g' [-> _]].
      reflexivity.
  - now rewrite (verify_otp_rejects s g Hf).
Qed.

(** What every call keeps: the health fields and whether the
    characteristic is in place. *)
Lemma verify_otp_keeps s g :
  let g' := final (verify_otp s g) in
  same_health g g'
  /\ (status_characteristic g' = None <-> status_characteristic g = None).
Proof.
  cbv zeta.
  destruct (format_ok s) eqn:Hf.
  - destruct (status_characteristic g) as [c |] eqn:Hsc.
    + destruct (frame_ready g) eqn:Hr.
      * destruct (format_ok_inv s Hf) as [Hl Hi].
        destruct (verify_otp_accepts s g Hl Hi Hr) as [g' [-> Hacc]].
        destruct Hacc as [_ [_ [_ [Hh [_ [_ [_ [_ [Hc _]]]]]]]]].
        cbn [final]. split; [exact Hh |].
        rewrite Hc, Hsc. split; discriminate.
      * destruct (verify_otp_raises s g c Hf Hsc Hr) as [e ->].
        cbn. rewrite Hsc. repeat split; discriminate.
    + destruct (verify_otp_accepts_silent s g Hf Hsc) as [g' [-> Hacc]].
      destruct Hacc as [_ [_ [_ [Hh [_ [_ [_ [_ [Hc _]]]]]]]]].
      cbn [final]. split; [exact Hh |].
      rewrite Hc, Hsc. split; reflexivity.
  - rewrite (verify_otp_rejects s g Hf). cbn. repeat split; auto.
Qed.

Lemma verdict_stable s g : verdict s (final (verify_otp s g)) = verdict s g.
Proof.
  destruct (verify_otp_keeps s g) as [Hh Hc].
  unfold verdict. rewrite (frame_ready_same_health _ _ Hh).
  destruct (status_characteristic (final (verify_otp s g))) as [c' |];
    destruct (status_characteristic g) as [c |]; try reflexivity.
  - destruct Hc as [_ Hc]. discriminate (Hc eq_refl).
  - destruct Hc as [Hc _]. discriminate (Hc eq_refl).
Qed.

Lemma verify_repeatedly_constant n s g :
  verify_repeatedly n s g = repeat (returned (verify_otp s g)) n.
Proof.
  revert g. induction n as [| n IH]; intros g; cbn [verify_repeatedly repeat].
  - reflexivity.
  - rewrite IH. f_equal. f_equal.
    now rewrite !returned_verify_otp, verdict_stable.
Qed.

(** The stored code and the allow-list are never read. *)
Lemma verify_otp_forgets s g o macs :
  let g2 := set_current_otp o (set_ALLOWED_PHONE_MACS macs g) in
  forget_secrets (final (verify_otp s g2))
  = forget_secrets (final (verify_otp s g)).
Proof.
  cbv zeta.
  destruct g as [v0 l0 co sc ss bp vo macs0 ov ck tm tr].
  py_unfold. cbn -[pack_status Py.len Py.isdigit Z.add].
  destruct ((Py.len s =? 6) && Py.isdigit s); cbn -[pack_status Z.add];
    [| reflexivity].
  destruct sc as [c |]; cbn -[pack_status Z.add]; [| reflexivity].
  destruct (pack_status true l0 bp ss vo) as [e | f1];
    cbn -[pack_status Z.add]; [reflexivity |].
  destruct (pack_status true true bp ss vo) as [e | f2];
    cbn -[pack_status Z.add]; reflexivity.
Qed.

(** C10.  What [verify_otp] returns does not depend on the stored
    [current_otp] nor on [ALLOWED_PHONE_MACS]: changing either leaves
    the result, and every other global afterwards, the same.  Any number
    of calls in a row on the same payload all return what the first one
    did, and a returned verdict is the format test of the payload: no
    expected code is compared. *)
Theorem C10_verdict_ignores_stored_code
    (s : string) (g : globals) (o : option string) (macs : list string)
    (n : nat) :
  let g2 := set_current_otp o (set_ALLOWED_PHONE_MACS macs g) in
  returned (verify_otp s g2) = returned (verify_otp s g)
  /\ forget_secrets (final (verify_otp s g2))
     = forget_secrets (final (verify_otp s g))
  /\ verify_repeatedly n s g = repeat (returned (verify_otp s g)) n
  /\ match returned (verify_otp s g) with
     | Some b => b = (Py.len s =? 6) && Py.isdigit s
     | None => format_ok s = true /\ frame_ready g = false
     end.
Proof.
  cbv zeta. split; [| split; [| split]].
  - rewrite !returned_verify_otp. reflexivity.
  - apply verify_otp_forgets.
  - apply verify_repeatedly_constant.
  - rewrite returned_verify_otp. unfold verdict.
    fold (format_ok s).
    destruct (format_ok s); [| reflexivity].
    destruct (status_characteristic g); [| reflexivity].
    destruct (frame_ready g); [reflexivity | split; reflexivity].
Qed.

(** The same six digits, five times over, with a different code stored
    and an empty allow-list: accepted every time. *)
Example verify_repeatedly_123456 :
  verify_repeatedly 5 "123456"
    (set_current_otp (Some "654321") (set_ALLOWED_PHONE_MACS [] booted))
  = [Some true; Some true; Some true; Some true; Some true].
Proof. vm_compute. reflexivity. Qed.

(** ** C3: auto-close timers are never cancelled *)

(** A timer that fires while the lock is closed does nothing at all. *)
Lemma auto_close_lock_when_locked g :
  lock_open g = false -> auto_close_lock g = Return false g.
Proof.
  intros H. unfold auto_close_lock, read, bind, ret. rewrite H. reflexivity.
Qed.

(** C3 as stated fails on [two_codes]: the first code arrives at 0 s and
    its timer is due at 18 s; the second arrives at 10 s, its handler
    ends at 13 s with a timer due at 28 s.  Both timers are then
    pending, and the first one closes the lock at 18 s, fewer than 15 s
    after the second code. *)
Lemma C3_counterexample :
  let g2 := run booted two_codes in
  let g3 := run g2 [Idle 5] in
  lock_open g2 = true
  /\ clock g2 = 13
  /\ timers g2 = [18; 28]
  /\ ~ (List.length (timers g2) <= 1)%nat
  /\ clock g3 = 18
  /\ lock_open g3 = false
  /\ clock g3 < 10 + 15
  /\ timers g3 = [28].
Proof.
  vm_compute. repeat split; try discriminate.
  intros H. apply Nat.leb_le in H. discriminate H.
Qed.

(** C3, amended.  An accepted code cancels nothing: it leaves the lock
    open and appends one single-shot timer, due 15 s after the opening
    has completed, to the timers that were pending; and a timer that
    fires while the lock is closed changes nothing, so stacked timers
    never close twice. *)
Theorem C3_accepted_code_appends_a_timer (s : string) (g g0 : globals) :
  Py.len s = 6 -> Py.all_decimal s = true -> frame_ready g = true ->
  lock_open g0 = false ->
  (exists g', verify_otp s g = Return true g'
     /\ lock_open g' = true
     /\ timers g' = timers g ++ [clock g' + 15]
     /\ List.length (timers g') = S (List.length (timers g)))
  /\ auto_close_lock g0 = Return false g0.
Proof.
  intros Hl Hd Hr H0. split; [| now apply auto_close_lock_when_locked].
  pose proof (all_decimal_isdigit s Hl Hd) as Hi.
  destruct (verify_otp_accepts s g Hl Hi Hr) as [g' [Hrun Hacc]].
  destruct Hacc as [_ [Ho [_ [_ [_ [_ [Hc [Ht _]]]]]]]].
  exists g'. repeat split; try assumption.
  - now rewrite Ht, Hc.
  - rewrite Ht, length_app. cbn. lia.
Qed.

Lemma C3_accepted_code_appends_a_timer_witness :
  let g1 := final (verify_otp "123456" booted) in
  (exists g', verify_otp "123456" g1 = Return true g'
     /\ lock_open g' = true
     /\ timers g' = timers g1 ++ [clock g' + 15]
     /\ List.length (timers g') = S (List.length (timers g1)))
  /\ auto_close_lock booted = Return false booted.
Proof.
  cbv zeta.
  apply (C3_accepted_code_appends_a_timer "123456"
           (final (verify_otp "123456" booted)) booted);
    vm_compute; reflexivity.
Defined.

(** ** C6: the order of the open actuation *)

(** C6 as stated fails on a code accepted while the lock is already
    open: the notification sent right after the verification, before
    the relay is driven and the 2 s have passed, carries lock_open = 1. *)
Lemma C6_counterexample :
  let g1 := final (verify_otp "123456" booted) in
  let evs := emitted g1 (final (verify_otp "123456" g1)) in
  lock_open g1 = true
  /\ before_settle evs =
       [Display "Verifying OTP" "123456"; Display "OTP Verified!" "Opening...";
        PropertiesChanged [1; 1; 100; 1; 0; 120]; Sleep 1;
        Display "Opening Lock..." "Stand By"; GpioOutput RELAY_PIN HIGH]
  /\ existsb announces_open (before_settle evs) = true.
Proof. vm_compute. repeat split. Qed.

Lemma emitted_app g g' evs : trace g' = trace g ++ evs -> emitted g g' = evs.
Proof.
  intros H. unfold emitted. rewrite H.
  rewrite skipn_app, skipn_all, Nat.sub_diag. reflexivity.
Qed.

(** C6, amended.  On an accepted code, with the status characteristic in
    place, the events are in this order: the verification feedback and a
    notification, a 1 s pause, the "opening" feedback, the relay, the
    2 s settle delay, and only then the "opened" feedback, the
    notification with lock_open = 1 and the timer.  A notification with
    lock_open = 1 comes before the settle delay exactly when the lock
    was already open when the code arrived; from a closed lock there is
    none. *)
Theorem C6_open_actuation_order (s : string) (g : globals) (c : list Z) :
  Py.len s = 6 -> Py.all_decimal s = true -> frame_ready g = true ->
  status_characteristic g = Some c ->
  exists g', verify_otp s g = Return true g'
    /\ before_settle (emitted g g') =
         [Display "Verifying OTP" s; Display "OTP Verified!" "Opening...";
          PropertiesChanged (frame true (lock_open g) g); Sleep 1;
          Display "Opening Lock..." "Stand By"; GpioOutput RELAY_PIN HIGH]
    /\ after_settle (emitted g g') =
         [Display "Lock Opened!" "Remove Items";
          PropertiesChanged (frame true true g); TimeoutAdd 15]
    /\ existsb announces_open (before_settle (emitted g g')) = lock_open g
    /\ existsb announces_open (after_settle (emitted g g')) = true.
Proof.
  intros Hl Hd Hr Hsc.
  pose proof (all_decimal_isdigit s Hl Hd) as Hi.
  destruct (verify_otp_accepts s g Hl Hi Hr) as [g' [Hrun Hacc]].
  destruct Hacc as [_ [_ [_ [_ [_ [_ [_ [_ [_ Htr]]]]]]]]].
  unfold notice in Htr. rewrite Hsc in Htr.
  exists g'. split; [exact Hrun |].
  rewrite (emitted_app g g' _ Htr).
  cbn -[frame]. repeat split.
  destruct (lock_open g); reflexivity.
Qed.

Lemma C6_open_actuation_order_witness :
  exists g', verify_otp "123456" booted = Return true g'
    /\ existsb announces_open (before_settle (emitted booted g'))
       = lock_open booted
    /\ lock_open booted = false.
Proof.
  destruct (C6_open_actuation_order "123456" booted [0; 0; 100; 1; 0; 120])
    as [g' [H1 [_ [_ [H2 _]]]]].
  - vm_compute. reflexivity.
  - vm_compute. reflexivity.
  - vm_compute. reflexivity.
  - vm_compute. reflexivity.
  - exists g'. repeat split; assumption.
Defined.

(** ** The running controller stays able to serve frames

    The hypotheses of C2, C4 and C6 on the globals hold at start-up and
    after every dispatch of the main loop, as long as the host reports
    voltages that stay finite. *)

Lemma auto_close_lock_keeps g :
  let g' := final (auto_close_lock g) in
  same_health g g'
  /\ (status_characteristic g <> None -> status_characteristic g' <> None).
Proof.
  cbv zeta. unfold same_health.
  destruct g as [v0 l0 co sc ss bp vo macs ov ck tm tr].
  py_unfold. cbn -[pack_status].
  destruct l0; cbn -[pack_status]; [| repeat split; auto].
  destruct sc as [c |]; cbn -[pack_status]; [| repeat split; auto].
  destruct (pack_status v0 false bp ss vo) as [e | f1];
    cbn -[pack_status]; [repeat split; auto |].
  destruct (pack_status false false bp ss vo) as [e | f2];
    cbn -[pack_status]; repeat split; discriminate.
Qed.

Lemma serving_same_health g g' :
  same_health g g' ->
  (status_characteristic g <> None -> status_characteristic g' <> None) ->
  serving g -> serving g'.
Proof.
  intros Hh Hc [Hr Hs]. split.
  - now rewrite (frame_ready_same_health g g' Hh).
  - now apply Hc.
Qed.

Lemma serving_auto_close_lock g :
  serving g -> serving (final (auto_close_lock g)).
Proof.
  destruct (auto_close_lock_keeps g) as [Hh Hc].
  now apply serving_same_health.
Qed.

Lemma serving_dispatch_due deadline pending g :
  serving g -> serving (dispatch_due deadline pending g).
Proof.
  revert g. induction pending as [| due rest IH]; intros g Hg;
    cbn [dispatch_due]; [exact Hg |].
  destruct (due <=? deadline); [| exact Hg].
  apply IH. apply serving_auto_close_lock.
  destruct Hg as [Hr Hs]. split; assumption.
Qed.

Lemma serving_WriteValue value g :
  serving g -> serving (final (WriteValue value g)).
Proof.
  intros Hg. unfold WriteValue, bind.
  destruct (verify_otp_keeps (Py.join_chr value) g) as [Hh Hc].
  assert (Hv : serving (final (verify_otp (Py.join_chr value) g))).
  { apply (serving_same_health g); [exact Hh | | exact Hg].
    intros Hn Hn'. apply Hn. now apply Hc. }
  destruct (verify_otp (Py.join_chr value) g) as [b g' | e g'];
    cbn [final] in *; [| exact Hv].
  destruct Hv as [Hr Hs]. split; assumption.
Qed.

Lemma serving_ReadValue g : serving g -> serving (final (ReadValue g)).
Proof.
  intros [Hr Hs]. rewrite (ReadValue_ready g Hr). cbn [final].
  split; [exact Hr | discriminate].
Qed.

Lemma serving_update_system_health h g :
  host_ok h = true -> serving g -> serving (final (update_system_health h g)).
Proof.
  unfold host_ok. intros Hh [Hr Hs].
  unfold update_system_health, try_except, bind, serving, frame_ready.
  destruct h as [[u |] vcr]; cbn [proc_uptime vcgencmd lift] in *.
  - unfold raise, ret.
    destruct (Py.int_of_float (Py.fdiv u (Py.float_of_Z 3600))) as [e | q].
    + split; [reflexivity | exact Hs].
    + destruct vcr as [| | cv]; cbn -[Py.int_of_float Py.fmul Py.float_of_Z];
        try (split; [reflexivity | exact Hs]).
      destruct (Py.int_of_float _); [discriminate |].
      split; [reflexivity | exact Hs].
  - split; [reflexivity | exact Hs].
Qed.

Lemma serving_step g i :
  input_ok i = true -> serving g -> serving (step g i).
Proof.
  destruct i as [value | | h | seconds]; cbn [input_ok step]; intros Hi Hg.
  - now apply serving_WriteValue.
  - now apply serving_ReadValue.
  - now apply serving_update_system_health.
  - unfold idle.
    pose proof (serving_dispatch_due (clock g + seconds) (timers g) g Hg)
      as [Hr Hs].
    split; assumption.
Qed.

Lemma serving_booted : serving booted.
Proof. split; [vm_compute; reflexivity | discriminate]. Qed.

Lemma serving_run l g :
  forallb input_ok l = true -> serving g -> serving (run g l).
Proof.
  unfold run. revert g.
  induction l as [| i l IH]; intros g Hl Hg; cbn [fold_left]; [exact Hg |].
  cbn [forallb] in Hl. apply andb_true_iff in Hl. destruct Hl as [Hi Hl].
  apply IH; [exact Hl |]. now apply serving_step.
Qed.

(** * Further properties *)

(** ** Which writes are accepted *)

Lemma byte_isdigit_chr b : Py.char_isdigit (ascii_of_byte b) = byte_isdigit b.
Proof. destruct b; reflexivity. Qed.

Lemma len_join_chr value :
  Py.len (Py.join_chr value) = Z.of_nat (List.length value).
Proof.
  unfold Py.len. f_equal.
  induction value as [| b r IH]; cbn; [reflexivity | now rewrite IH].
Qed.

Lemma str_forall_join_chr value :
  Py.str_forall Py.char_isdigit (Py.join_chr value)
  = forallb byte_isdigit value.
Proof.
  induction value as [| b r IH]; cbn; [reflexivity |].
  now rewrite IH, byte_isdigit_chr.
Qed.

Lemma format_ok_join_chr value :
  format_ok (Py.join_chr value) = bytes_ok value.
Proof.
  unfold format_ok, bytes_ok. rewrite len_join_chr.
  destruct value as [| b r]; [reflexivity |].
  f_equal. unfold Py.isdigit. cbn [Py.join_chr].
  exact (str_forall_join_chr (b :: r)).
Qed.

(** An accepted write on a serving controller. *)
Lemma accepted_write value g :
  serving g -> bytes_ok value = true ->
  let g' := final (WriteValue value g) in
  otp_verified g' = true
  /\ lock_open g' = true
  /\ clock g' = clock g + 3
  /\ timers g' = timers g ++ [clock g + 18].
Proof.
  intros [Hr Hs] Hb. cbv zeta. unfold WriteValue, bind, exec.
  rewrite <- format_ok_join_chr in Hb.
  destruct (format_ok_inv _ Hb) as [Hl Hi].
  destruct (verify_otp_accepts _ g Hl Hi Hr) as [g' [-> Hacc]].
  destruct Hacc as [Hv [Ho [_ [_ [_ [_ [Hk [Ht _]]]]]]]].
  cbn. repeat split; try assumption.
  - rewrite Hk. lia.
  - rewrite Ht. do 2 f_equal. lia.
Qed.

(** X1.  A write to the OTP characteristic of a serving controller is
    accepted exactly when the payload is six bytes that are each an
    [isdigit] digit.  Then both flags end true, the code is stored and
    one timer due 18 s after the write began is appended; otherwise the
    only effects are the two feedback lines.  Either way the payload
    becomes the value of the characteristic. *)
Theorem X1_write_accepts_exactly_bytes_ok
    (value : list Byte.byte) (g : globals) :
  serving g ->
  let g' := final (WriteValue value g) in
  returned (WriteValue value g) = Some tt
  /\ otp_value g' = value
  /\ if bytes_ok value
     then otp_verified g' = true
          /\ lock_open g' = true
          /\ current_otp g' = Some (Py.join_chr value)
          /\ clock g' = clock g + 3
          /\ timers g' = timers g ++ [clock g + 18]
     else g' = set_otp_value value
                 (emit (Display "Invalid OTP" "Try Again")
                    (emit (Display "Verifying OTP" (Py.join_chr value)) g)).
Proof.
  intros [Hr Hs]. cbv zeta. unfold WriteValue, bind, exec.
  rewrite <- format_ok_join_chr.
  destruct (format_ok (Py.join_chr value)) eqn:Hf.
  - destruct (format_ok_inv _ Hf) as [Hl Hi].
    destruct (verify_otp_accepts _ g Hl Hi Hr) as [g' [-> Hacc]].
    destruct Hacc as [Hv [Ho [Hc [_ [_ [_ [Hk [Ht _]]]]]]]].
    cbn. repeat split; try assumption.
    + rewrite Hk. lia.
    + rewrite Ht. do 2 f_equal. lia.
  - rewrite (verify_otp_rejects _ g Hf). cbn. repeat split.
Qed.

Lemma X1_write_accepts_exactly_bytes_ok_witness :
  let g' := final (WriteValue (payload "000000") booted) in
  otp_value g' = payload "000000" /\ lock_open g' = true
  /\ timers g' = [18].
Proof.
  cbv zeta.
  pose proof (X1_write_accepts_exactly_bytes_ok (payload "000000") booted)
    as H.
  destruct H as [_ [H1 H2]].
  - split; [vm_compute; reflexivity | discriminate].
  - change (bytes_ok (payload "000000")) with true in H2.
    destruct H2 as [_ [H3 [_ [_ H4]]]].
    repeat split; assumption.
Defined.

(** X2.  When the frame cannot be built (here: the status
    characteristic is in place but the health reading does not fit), a
    well-formed code makes [verify_otp] raise at its first
    notification: the code is stored and [otp_verified] is set, but the
    relay is not driven, [lock_open] and the timers stay as they were
    and nothing is notified. *)
Theorem X2_verify_otp_raises_before_opening
    (s : string) (g : globals) (c : list Z) :
  format_ok s = true ->
  status_characteristic g = Some c ->
  frame_ready g = false ->
  let o := verify_otp s g in
  returned o = None
  /\ otp_verified (final o) = true
  /\ current_otp (final o) = Some s
  /\ lock_open (final o) = lock_open g
  /\ timers (final o) = timers g
  /\ clock (final o) = clock g
  /\ status_characteristic (final o) = Some c
  /\ trace (final o) =
       trace g ++ [Display "Verifying OTP" s;
                   Display "OTP Verified!" "Opening..."].
Proof.
  intros Hf Hsc Hr. cbv zeta.
  destruct (verify_otp_raises s g c Hf Hsc Hr) as [e ->].
  cbn. rewrite <- app_assoc. repeat split. exact Hsc.
Qed.

Lemma X2_verify_otp_raises_before_opening_witness :
  let g := set_voltage S754_nan booted in
  let o := verify_otp "123456" g in
  returned o = None /\ otp_verified (final o) = true
  /\ lock_open (final o) = false /\ timers (final o) = [].
Proof.
  cbv zeta.
  destruct (X2_verify_otp_raises_before_opening "123456"
              (set_voltage S754_nan booted) [0; 0; 100; 1; 0; 120])
    as [H1 [H2 [_ [H3 [H4 _]]]]]; try (vm_compute; reflexivity).
  repeat split; assumption.
Defined.

(** ** What a frame can be *)

Lemma dbus_Byte_inv x y : dbus_Byte x = inr y -> y = x /\ 0 <= x < 256.
Proof.
  unfold dbus_Byte.
  destruct (Z.leb_spec 0 x) as [L0 | L0];
    destruct (Z.ltb_spec x 256) as [L1 | L1]; cbn; try discriminate.
  intros E. injection E as <-. lia.
Qed.

(** Whenever [pack_status] returns, the voltage had an integer value,
    the safety status fitted a byte, and the frame is the expected one. *)
Lemma pack_status_inv v l bat safe volt f :
  pack_status v l bat safe volt = inr f ->
  exists vi,
    Py.int_of_float (Py.fmul volt (Py.float_of_Z 10)) = inr vi
    /\ 0 <= safe < 256
    /\ f = [bool_byte v; bool_byte l; clamp_percent bat; safe;
            Z.land (Z.shiftr vi 8) 255; Z.land vi 255].
Proof.
  intros H.
  destruct (Py.int_of_float (Py.fmul volt (Py.float_of_Z 10)))
    as [e | vi] eqn:Hvi.
  - unfold pack_status in H. rewrite Hvi in H. discriminate H.
  - exists vi. split; [reflexivity |].
    assert (Hs : 0 <= safe < 256).
    { unfold pack_status in H. rewrite Hvi in H.
      cbv beta iota delta [sum_bind] in H.
      fold (bool_byte v) in H. fold (bool_byte l) in H.
      fold (clamp_percent bat) in H.
      rewrite (dbus_Byte_inr (bool_byte v)) in H by apply bool_byte_range.
      rewrite (dbus_Byte_inr (bool_byte l)) in H by apply bool_byte_range.
      rewrite (dbus_Byte_inr (clamp_percent bat)) in H
        by (pose proof (clamp_percent_range bat); lia).
      destruct (dbus_Byte safe) as [e | y] eqn:Hy; [discriminate H |].
      now apply dbus_Byte_inv in Hy. }
    split; [exact Hs |].
    rewrite (pack_status_inr v l bat safe volt vi Hvi Hs) in H.
    now injection H as <-.
Qed.

(** X3.  Whatever the globals, a frame that [pack_status] returns has
    exactly six elements, each of them a byte, with 0 or 1 in the two
    flag positions and at most 100 in the battery position. *)
Theorem X3_frame_is_six_bytes
    (v l : bool) (bat safe : Z) (volt : Py.float) (f : list Z) :
  pack_status v l bat safe volt = inr f ->
  List.length f = 6%nat
  /\ Forall (fun b => 0 <= b < 256) f
  /\ (nth_error f 0 = Some 0 \/ nth_error f 0 = Some 1)
  /\ (nth_error f 1 = Some 0 \/ nth_error f 1 = Some 1)
  /\ (exists b, nth_error f 2 = Some b /\ 0 <= b <= 100).
Proof.
  intros Hf. destruct (pack_status_inv _ _ _ _ _ _ Hf) as [vi [_ [Hs ->]]].
  split; [reflexivity |]. split; [| split; [| split]].
  - pose proof (bool_byte_range v) as B0.
    pose proof (bool_byte_range l) as B1.
    pose proof (clamp_percent_range bat) as B2.
    pose proof (land_255_range (Z.shiftr vi 8)) as B4.
    pose proof (land_255_range vi) as B5.
    repeat constructor; lia.
  - destruct v; [right | left]; reflexivity.
  - destruct l; [right | left]; reflexivity.
  - exists (clamp_percent bat). split; [reflexivity |].
    apply clamp_percent_range.
Qed.

Lemma X3_frame_is_six_bytes_witness :
  List.length [0; 1; 100; 3; 46; 224] = 6%nat
  /\ Forall (fun b => 0 <= b < 256) [0; 1; 100; 3; 46; 224].
Proof.
  destruct (X3_frame_is_six_bytes false true 7000 3 (Py.float_of_Z 1200)
              [0; 1; 100; 3; 46; 224]) as [H1 [H2 _]].
  - vm_compute. reflexivity.
  - split; assumption.
Defined.

Lemma two_bytes_value vi :
  0 <= vi < 65536 ->
  256 * Z.land (Z.shiftr vi 8) 255 + Z.land vi 255 = vi.
Proof.
  intros H.
  rewrite Z.shiftr_div_pow2 by lia.
  change 255 with (Z.ones 8). rewrite !Z.land_ones by lia.
  change (2 ^ 8) with 256.
  rewrite (Z.mod_small (vi / 256) 256).
  - pose proof (Z.div_mod vi 256). lia.
  - split; [apply Z.div_pos; lia | apply Z.div_lt_upper_bound; lia].
Qed.

(** X4.  On its nominal range the frame loses nothing: two readings
    with battery in 0..100 and voltage tenths in 0..65535 that pack to
    the same frame have the same flags, battery, safety status and
    voltage tenths. *)
Theorem X4_frame_is_lossless_on_range
    (v l v' l' : bool) (bat safe bat' safe' vi vi' : Z)
    (volt volt' : Py.float) (f : list Z) :
  Py.int_of_float (Py.fmul volt (Py.float_of_Z 10)) = inr vi ->
  Py.int_of_float (Py.fmul volt' (Py.float_of_Z 10)) = inr vi' ->
  0 <= bat <= 100 -> 0 <= bat' <= 100 ->
  0 <= vi < 65536 -> 0 <= vi' < 65536 ->
  pack_status v l bat safe volt = inr f ->
  pack_status v' l' bat' safe' volt' = inr f ->
  v = v' /\ l = l' /\ bat = bat' /\ safe = safe' /\ vi = vi'.
Proof.
  intros Hvi Hvi' Hb Hb' Hr Hr' Hf Hf'.
  destruct (pack_status_inv _ _ _ _ _ _ Hf) as [w [Hw [_ ->]]].
  destruct (pack_status_inv _ _ _ _ _ _ Hf') as [w' [Hw' [_ E]]].
  rewrite Hvi in Hw. injection Hw as <-.
  rewrite Hvi' in Hw'. injection Hw' as <-.
  injection E as E0 E1 E2 E3 E4 E5.
  repeat split.
  - destruct v, v'; cbn in E0; congruence.
  - destruct l, l'; cbn in E1; congruence.
  - unfold clamp_percent in E2. lia.
  - exact E3.
  - rewrite <- (two_bytes_value vi Hr), <- (two_bytes_value vi' Hr').
    now rewrite E4, E5.
Qed.

Lemma X4_frame_is_lossless_on_range_witness :
  true = true /\ false = false /\ 42 = 42 /\ 2 = 2 /\ 3000 = 3000.
Proof.
  apply (X4_frame_is_lossless_on_range true false true false 42 2 42 2
           3000 3000 (Py.float_of_Z 300) (Py.float_of_Z 300)
           [1; 0; 42; 2; 11; 184]);
    try (vm_compute; reflexivity); lia.
Defined.

(** ** The health reading *)

Lemma binary_round_aux_sign sx mx ex lx :
  match binary_round_aux Py.prec Py.emax sx mx ex lx with
  | S754_zero s => s = sx
  | S754_infinity s => s = sx
  | S754_finite s _ _ => s = sx
  | S754_nan => True
  end.
Proof.
  unfold binary_round_aux.
  destruct (shr_fexp Py.prec Py.emax mx ex lx) as [mrs' e'].
  destruct (shr_fexp Py.prec Py.emax _ e' loc_Exact) as [mrs'' e''].
  destruct (shr_m mrs'') as [| m | m]; [reflexivity | | exact I].
  destruct (e'' <=? Py.emax - Py.prec); reflexivity.
Qed.

Lemma int_of_float_nonneg x q :
  float_negative x = false -> Py.int_of_float x = inr q -> 0 <= q.
Proof.
  destruct x as [s | s | | s m e]; cbn; intros Hs Hq; try discriminate.
  - injection Hq as <-. lia.
  - subst s. injection Hq as <-.
    destruct (0 <=? e); [apply Z.shiftl_nonneg | apply Z.shiftr_nonneg]; lia.
Qed.

Lemma fdiv_3600_sign u :
  float_negative u = false ->
  float_negative (Py.fdiv u (Py.float_of_Z 3600)) = false.
Proof.
  intros Hu. unfold Py.fdiv.
  change (Py.float_of_Z 3600)
    with (S754_finite false 7916483719987200 (-41)).
  destruct u as [s | s | | s m e]; cbn in Hu |- *; try assumption;
    try (subst s; reflexivity).
  subst s. unfold SFdiv.
  destruct (SFdiv_core_binary Py.prec Py.emax (Z.pos m) e
              7916483719987200 (-41)) as [[mz ez] lz].
  pose proof (binary_round_aux_sign (xorb false false) mz ez lz) as S.
  destruct (binary_round_aux Py.prec Py.emax (xorb false false) mz ez lz);
    cbn in S |- *; try reflexivity; assumption.
Qed.

(** X5.  After a health refresh on a host whose uptime is not negative
    (or cannot be read), the stored battery percent lies in 0..100 and
    the safety status is 1, whatever they were before. *)
Theorem X5_battery_percent_in_range (h : host) (g : globals) :
  uptime_not_negative h = true ->
  let g' := final (update_system_health h g) in
  0 <= battery_percent g' <= 100 /\ safe_status g' = 1.
Proof.
  unfold uptime_not_negative. intros Hu. cbv zeta.
  unfold update_system_health, try_except, bind.
  destruct h as [[u |] vcr]; cbn [proc_uptime vcgencmd lift] in *.
  - apply negb_true_iff in Hu.
    pose proof (fdiv_3600_sign u Hu) as Hd.
    unfold raise, ret.
    destruct (Py.int_of_float (Py.fdiv u (Py.float_of_Z 3600)))
      as [e | q] eqn:Hq.
    + cbn. split; [lia | reflexivity].
    + pose proof (int_of_float_nonneg _ q Hd Hq) as Hq0.
      destruct vcr; cbn -[Z.max Z.min Z.sub]; split; try reflexivity; lia.
  - cbn. split; [lia | reflexivity].
Qed.

Lemma X5_battery_percent_in_range_witness :
  let h := mkHost (Some (Py.float_of_Z 1000000)) VcExit in
  let g' := final (update_system_health h module_globals) in
  0 <= battery_percent g' <= 100 /\ safe_status g' = 1.
Proof.
  apply (X5_battery_percent_in_range
           (mkHost (Some (Py.float_of_Z 1000000)) VcExit) module_globals).
  vm_compute. reflexivity.
Defined.

(** A negative uptime is not guarded against: two hours below zero give
    102 percent, which only the frame clamps. *)
Example update_system_health_negative_uptime :
  let h := mkHost (Some (Py.float_of_Z (-7200))) VcExit in
  let g' := final (update_system_health h module_globals) in
  battery_percent g' = 102
  /\ current_frame g' = inr [0; 0; 100; 1; 0; 120].
Proof. vm_compute. split; reflexivity. Qed.

(** X6.  The reading that a health refresh stores is decided by the
    host alone: nothing of the previous reading, nor of any other
    global, is kept in the three health fields, and refreshing twice
    from the same host readings is the same as refreshing once. *)
Theorem X6_health_reading_is_the_hosts (h : host) (g1 g2 : globals) :
  let a := final (update_system_health h g1) in
  let b := final (update_system_health h g2) in
  battery_percent a = battery_percent b
  /\ voltage a = voltage b
  /\ safe_status a = safe_status b
  /\ final (update_system_health h a) = a.
Proof.
  cbv zeta. unfold update_system_health, try_except, bind.
  destruct g1 as [v1 l1 co1 sc1 ss1 bp1 vo1 macs1 ov1 ck1 tm1 tr1].
  destruct h as [[u |] vcr]; cbn [proc_uptime vcgencmd lift].
  - unfold raise, ret.
    destruct (Py.int_of_float (Py.fdiv u (Py.float_of_Z 3600))) as [e | q].
    + repeat split.
    + destruct vcr; repeat split.
  - repeat split.
Qed.

(** ** What the main loop keeps between two dispatches *)

Lemma update_system_health_frame h g :
  let g' := final (update_system_health h g) in
  lock_open g' = lock_open g
  /\ otp_verified g' = otp_verified g
  /\ status_characteristic g' = status_characteristic g
  /\ clock g' = clock g
  /\ timers g' = timers g
  /\ trace g' = trace g.
Proof.
  cbv zeta. unfold update_system_health, try_except, bind.
  destruct h as [[u |] vcr]; cbn [proc_uptime vcgencmd lift].
  - unfold raise, ret.
    destruct (Py.int_of_float (Py.fdiv u (Py.float_of_Z 3600))) as [e | q].
    + repeat split.
    + destruct vcr; repeat split.
  - repeat split.
Qed.

(** A timer firing on a serving controller. *)
Lemma auto_close_lock_serving g :
  serving g ->
  exists g', auto_close_lock g = Return false g'
    /\ lock_open g' = false
    /\ otp_verified g' = (if lock_open g then false else otp_verified g)
    /\ timers g' = timers g
    /\ clock g' = clock g
    /\ status_characteristic g' =
         (if lock_open g then Some (frame false false g)
          else status_characteristic g).
Proof.
  intros [Hr Hs].
  py_globals g Hr P. cbn in Hs.
  destruct sc as [c |]; [| congruence].
  py_unfold. destruct l0; py_run P;
    (eexists; split; [reflexivity |]); repeat split.
Qed.

Lemma flags_cached_frame g' v l g0 :
  status_characteristic g' = Some (frame v l g0) ->
  otp_verified g' = v -> lock_open g' = l -> flags_cached g'.
Proof.
  intros Hc Hv Hl. exists (frame v l g0). rewrite Hv, Hl.
  repeat split. exact Hc.
Qed.

Lemma steady_WriteValue value g :
  steady g -> steady (final (WriteValue value g)).
Proof.
  intros [Hsv [Hvl [Hot [Hdue Hfc]]]].
  pose proof (serving_WriteValue value g Hsv) as Hsv'.
  split; [exact Hsv' |]. clear Hsv'.
  destruct Hsv as [Hr Hs].
  unfold WriteValue, bind, exec.
  destruct (format_ok (Py.join_chr value)) eqn:Hf.
  - destruct (format_ok_inv _ Hf) as [Hl Hi].
    destruct (verify_otp_accepts _ g Hl Hi Hr) as [g' [-> Hacc]].
    destruct Hacc as [Hv [Ho [_ [_ [_ [_ [Hk [Ht [Hc _]]]]]]]]].
    cbn. rewrite Hv, Ho, Ht, Hk. repeat split.
    + intros _. destruct (timers g); discriminate.
    + apply Forall_app. split.
      * eapply Forall_impl; [| exact Hdue]. cbn. intros a Ha. lia.
      * constructor; [lia | constructor].
    + destruct (status_characteristic g) as [c |]; [| congruence].
      apply (flags_cached_frame (set_otp_value value g') true true g);
        assumption.
  - rewrite (verify_otp_rejects _ g Hf). cbn.
    repeat split; assumption.
Qed.

Lemma steady_ReadValue g : steady g -> steady (final (ReadValue g)).
Proof.
  intros [Hsv [Hvl [Hot [Hdue Hfc]]]].
  pose proof (serving_ReadValue g Hsv) as Hsv'.
  destruct Hsv as [Hr Hs].
  rewrite (ReadValue_ready g Hr) in *. cbn [final] in *.
  split; [exact Hsv' |]. repeat split; try assumption.
  eapply flags_cached_frame; reflexivity.
Qed.

Lemma steady_update_system_health h g :
  host_ok h = true -> steady g -> steady (final (update_system_health h g)).
Proof.
  intros Hh [Hsv [Hvl [Hot [Hdue Hfc]]]].
  pose proof (serving_update_system_health h g Hh Hsv) as Hsv'.
  destruct (update_system_health_frame h g) as [Hl [Hv [Hc [Hk [Ht _]]]]].
  split; [exact Hsv' |].
  unfold flags_cached. rewrite Hl, Hv, Hc, Hk, Ht.
  repeat split; assumption.
Qed.

(** One pending timer is taken off and fires. *)
Lemma steady_fire due rest g :
  steady g -> timers g = due :: rest ->
  let g' := final (auto_close_lock
                     (set_timers rest
                        (set_clock (Z.max (clock g) due) g))) in
  steady g'
  /\ lock_open g' = false
  /\ otp_verified g' = false
  /\ timers g' = rest
  /\ clock g <= clock g'.
Proof.
  intros [Hsv [Hvl [Hot [Hdue Hfc]]]] Ht. cbv zeta.
  set (g1 := set_timers rest (set_clock (Z.max (clock g) due) g)).
  assert (Hsv1 : serving g1) by (destruct Hsv; split; assumption).
  destruct (auto_close_lock_serving g1 Hsv1)
    as [g' [Hrun [Hl [Hv [Ht' [Hk Hc]]]]]].
  pose proof (serving_auto_close_lock g1 Hsv1) as Hsv'.
  rewrite Hrun in *. cbn [final] in *.
  assert (Hv' : otp_verified g' = false).
  { rewrite Hv. change (lock_open g1) with (lock_open g).
    change (otp_verified g1) with (otp_verified g).
    destruct (lock_open g); [reflexivity | exact Hvl]. }
  rewrite Ht in Hdue. apply Forall_cons_iff in Hdue.
  destruct Hdue as [_ Hrest].
  split; [| repeat split; try assumption;
            rewrite Hk; cbn; lia].
  split; [exact Hsv' |].
  split; [now rewrite Hv', Hl |].
  split; [rewrite Hl; discriminate |].
  split.
  - rewrite Ht', Hk. cbn.
    eapply Forall_impl; [| exact Hrest]. cbn. intros a Ha. lia.
  - change (lock_open g1) with (lock_open g) in Hc.
    change (status_characteristic g1) with (status_characteristic g) in Hc.
    destruct (lock_open g) eqn:Hlo.
    + apply (flags_cached_frame g' false false g1); assumption.
    + destruct Hfc as [f [Hf [Hf0 Hf1]]]. exists f.
      rewrite Hc, Hv', Hl. rewrite Hlo in Hf1. rewrite Hvl in Hf0.
      repeat split; assumption.
Qed.

Lemma steady_dispatch_due deadline pending g :
  steady g -> timers g = pending ->
  steady (dispatch_due deadline pending g)
  /\ clock g <= clock (dispatch_due deadline pending g).
Proof.
  revert g. induction pending as [| due rest IH]; intros g Hg Ht;
    cbn [dispatch_due]; [split; [exact Hg | lia] |].
  destruct (due <=? deadline); [| split; [exact Hg | lia]].
  destruct (steady_fire due rest g Hg Ht) as [Hg' [_ [_ [Ht' Hk]]]].
  destruct (IH _ Hg' Ht') as [H1 H2].
  split; [exact H1 | lia].
Qed.

Lemma steady_set_clock t g : clock g <= t -> steady g -> steady (set_clock t g).
Proof.
  intros Ht [[Hr Hs] [Hvl [Hot [Hdue Hfc]]]].
  repeat split; try assumption.
  cbn. eapply Forall_impl; [| exact Hdue]. cbn. intros a Ha. lia.
Qed.

Lemma steady_step g i :
  input_ok i = true -> steady g -> steady (step g i).
Proof.
  destruct i as [value | | h | seconds]; cbn [input_ok step]; intros Hi Hg.
  - now apply steady_WriteValue.
  - now apply steady_ReadValue.
  - now apply steady_update_system_health.
  - unfold idle.
    destruct (steady_dispatch_due (clock g + seconds) (timers g) g Hg eq_refl)
      as [H1 _].
    apply steady_set_clock; [lia | exact H1].
Qed.

Lemma steady_started h : host_ok h = true -> steady (started h).
Proof.
  intros Hh. unfold started, main_setup, bind, display_message, exec, ret.
  set (g0 := emit (Display "Guardian Safe" "Ready")
               (set_status_characteristic (Some [0; 0; 100; 1; 0; 120])
                  (emit (Display "Guardian Safe" "Initializing...")
                     module_globals))).
  assert (H0 : steady g0).
  { repeat split; try discriminate; try constructor.
    exists [0; 0; 100; 1; 0; 120]. repeat split. }
  pose proof (steady_update_system_health h g0 Hh H0) as H1.
  destruct (update_system_health h g0) as [b g' | e g']; exact H1.
Qed.

(** X7.  From start-up on, as long as the host reports voltages that
    stay finite, these hold after every dispatch of the main loop (OTP
    writes of any content, status reads, health refreshes, idle
    periods): the frame can be built and the status characteristic is
    registered; [otp_verified] equals [lock_open]; an open lock has an
    auto-close timer pending; every pending timer is due within 15 s;
    and the cached value of the status characteristic shows the two
    flags as they are. *)
Theorem X7_main_loop_invariant (h : host) (l : list input) :
  host_ok h = true ->
  forallb input_ok l = true ->
  let g := run (started h) l in
  frame_ready g = true
  /\ otp_verified g = lock_open g
  /\ (lock_open g = true -> timers g <> [])
  /\ Forall (fun due => due <= clock g + 15) (timers g)
  /\ exists f, status_characteristic g = Some f
       /\ nth_error f 0 = Some (bool_byte (otp_verified g))
       /\ nth_error f 1 = Some (bool_byte (lock_open g)).
Proof.
  intros Hh Hl. cbv zeta.
  assert (H : steady (run (started h) l)).
  { pose proof (steady_started h Hh) as H0. revert H0 Hl.
    generalize (started h). unfold run.
    induction l as [| i l IH]; intros g Hg Hl; cbn [fold_left];
      [exact Hg |].
    cbn [forallb] in Hl. apply andb_true_iff in Hl. destruct Hl as [Hi Hl].
    apply IH; [| exact Hl]. now apply steady_step. }
  destruct H as [[Hr _] [Hvl [Hot [Hdue Hfc]]]].
  repeat split; assumption.
Qed.

Lemma X7_main_loop_invariant_witness :
  let g := run (started healthy_host)
             [OtpWrite (payload "123456"); StatusRead; Idle 4;
              HealthTick healthy_host; OtpWrite (payload "12a456")] in
  frame_ready g = true /\ otp_verified g = lock_open g
  /\ (lock_open g = true -> timers g <> []).
Proof.
  cbv zeta.
  destruct (X7_main_loop_invariant healthy_host
              [OtpWrite (payload "123456"); StatusRead; Idle 4;
               HealthTick healthy_host; OtpWrite (payload "12a456")])
    as [H1 [H2 [H3 _]]]; try (vm_compute; reflexivity).
  repeat split; assumption.
Defined.

(** ** The lock closes again *)

Lemma dispatch_due_all deadline pending g :
  steady g -> timers g = pending ->
  Forall (fun due => due <= deadline) pending ->
  let g' := dispatch_due deadline pending g in
  timers g' = [] /\ lock_open g' = false /\ otp_verified g' = false.
Proof.
  revert g. induction pending as [| due rest IH]; intros g Hg Ht Hall;
    cbn [dispatch_due].
  - destruct Hg as [_ [Hvl [Hot _]]].
    assert (Hl : lock_open g = false).
    { destruct (lock_open g); [| reflexivity].
      exfalso. now apply Hot. }
    rewrite Hvl. repeat split; assumption.
  - apply Forall_cons_iff in Hall. destruct Hall as [Hd Hrest].
    apply Z.leb_le in Hd. rewrite Hd.
    destruct (steady_fire due rest g Hg Ht) as [Hg' [_ [_ [Ht' _]]]].
    exact (IH _ Hg' Ht' Hrest).
Qed.

(** X8.  However the main loop was used since start-up, once it has
    been idle for 15 s the lock is closed again: [lock_open] and
    [otp_verified] are false and no auto-close timer is pending. *)
Theorem X8_idle_closes_the_lock
    (h : host) (l : list input) (seconds : Z) :
  host_ok h = true ->
  forallb input_ok l = true ->
  15 <= seconds ->
  let g := run (started h) (l ++ [Idle seconds]) in
  lock_open g = false /\ otp_verified g = false /\ timers g = [].
Proof.
  intros Hh Hl Hs. cbv zeta.
  unfold run. rewrite fold_left_app. cbn [fold_left step].
  fold (run (started h) l).
  assert (H : steady (run (started h) l)).
  { pose proof (steady_started h Hh) as H0. revert H0 Hl.
    generalize (started h). unfold run.
    induction l as [| i l IH]; intros g Hg Hl; cbn [fold_left];
      [exact Hg |].
    cbn [forallb] in Hl. apply andb_true_iff in Hl. destruct Hl as [Hi Hl].
    apply IH; [| exact Hl]. now apply steady_step. }
  set (g := run (started h) l) in *.
  unfold idle.
  assert (Hall : Forall (fun due => due <= clock g + seconds) (timers g)).
  { destruct H as [_ [_ [_ [Hdue _]]]].
    eapply Forall_impl; [| exact Hdue]. cbn. intros a Ha. lia. }
  destruct (dispatch_due_all (clock g + seconds) (timers g) g H eq_refl Hall)
    as [H1 [H2 H3]].
  repeat split; assumption.
Qed.

Lemma X8_idle_closes_the_lock_witness :
  let g := run (started healthy_host)
             ([OtpWrite (payload "123456"); Idle 7;
               OtpWrite (payload "123456")] ++ [Idle 15]) in
  lock_open g = false /\ otp_verified g = false /\ timers g = [].
Proof.
  apply (X8_idle_closes_the_lock healthy_host
           [OtpWrite (payload "123456"); Idle 7;
            OtpWrite (payload "123456")] 15);
    [vm_compute; reflexivity | vm_compute; reflexivity | lia].
Defined.

(** ** Nothing but an accepted write opens the lock *)

Lemma auto_close_lock_locks g : lock_open (final (auto_close_lock g)) = false.
Proof.
  destruct g as [v0 l0 co sc ss bp vo macs ov ck tm tr].
  py_unfold. cbn -[pack_status].
  destruct l0; cbn -[pack_status]; [| reflexivity].
  destruct sc as [c |]; cbn -[pack_status]; [| reflexivity].
  destruct (pack_status v0 false bp ss vo) as [e | f1];
    cbn -[pack_status]; [reflexivity |].
  destruct (pack_status false false bp ss vo) as [e | f2]; reflexivity.
Qed.

Lemma dispatch_due_never_opens deadline pending g :
  lock_open (dispatch_due deadline pending g) = true -> lock_open g = true.
Proof.
  revert g. induction pending as [| due rest IH]; intros g;
    cbn [dispatch_due]; [trivial |].
  destruct (due <=? deadline); [| trivial].
  intros H. apply IH in H. now rewrite auto_close_lock_locks in H.
Qed.

Lemma verify_otp_lock_open s g :
  format_ok s = false -> lock_open (final (verify_otp s g)) = lock_open g.
Proof. intros H. now rewrite (verify_otp_rejects s g H). Qed.

(** X9.  In any state whatever, a dispatch of the main loop that finds
    the lock closed and leaves it open was a write to the OTP
    characteristic of six [isdigit] bytes: status reads, health
    refreshes, idle periods with their timers and rejected writes never
    open the lock. *)
Theorem X9_only_an_accepted_write_opens (g : globals) (i : input) :
  lock_open g = false ->
  lock_open (step g i) = true ->
  exists value, i = OtpWrite value /\ bytes_ok value = true.
Proof.
  intros H0 H1.
  destruct i as [value | | h | seconds]; cbn [step] in H1.
  - exists value. split; [reflexivity |].
    rewrite <- format_ok_join_chr.
    destruct (format_ok (Py.join_chr value)) eqn:Hf; [reflexivity |].
    exfalso. unfold WriteValue, bind, exec in H1.
    rewrite (verify_otp_rejects _ g Hf) in H1. cbn in H1. congruence.
  - exfalso. rewrite ReadValue_eq in H1.
    destruct (current_frame g); cbn in H1; congruence.
  - exfalso.
    destruct (update_system_health_frame h g) as [Hl _]. congruence.
  - exfalso. unfold idle in H1. cbn in H1.
    apply dispatch_due_never_opens in H1. congruence.
Qed.

Lemma X9_only_an_accepted_write_opens_witness :
  exists value, OtpWrite (payload "135790") = OtpWrite value
                /\ bytes_ok value = true.
Proof.
  apply (X9_only_an_accepted_write_opens booted
           (OtpWrite (payload "135790"))); vm_compute; reflexivity.
Defined.

(** ** Shutting down *)

(** X10.  In any state whatever, the shutdown path drives the relay low
    and clears [lock_open] before it tries to notify: the lock ends
    closed even when the notification cannot be built and raises, and
    the pending timers are left as they are. *)
Theorem X10_shutdown_closes_first (g : globals) :
  let g' := final (shutdown g) in
  lock_open g' = false
  /\ timers g' = timers g
  /\ firstn 3 (emitted g g') =
       [Display "Shutting Down" ""; GpioOutput RELAY_PIN LOW;
        Display "Lock Closed" "Ready"]
  /\ match returned (shutdown g) with
     | Some _ => True
     | None => frame_ready g = false /\ status_characteristic g <> None
     end.
Proof.
  cbv zeta. unfold emitted.
  destruct (frame_ready g) eqn:Hr.
  - py_globals g Hr P. unfold shutdown. py_unfold.
    destruct sc as [c |]; py_run P; rewrite <- ?app_assoc;
      rewrite skipn_app, skipn_all, Nat.sub_diag; repeat split.
  - destruct (pack_status_not_ready g Hr) as [e P].
    destruct g as [v0 l0 co sc ss bp vo macs ov ck tm tr].
    cbn [battery_percent safe_status voltage] in P.
    unfold shutdown. py_unfold.
    destruct sc as [c |]; py_run P; rewrite <- ?app_assoc;
      rewrite skipn_app, skipn_all, Nat.sub_diag; repeat split;
      discriminate.
Qed.

(** ** Finding the adapter and starting up *)

Lemma exposes_gatt_manager props :
  existsb (String.eqb GATT_MANAGER_IFACE) props = true
  <-> In GATT_MANAGER_IFACE props.
Proof.
  rewrite existsb_exists. split.
  - intros [x [Hx E]]. apply String.eqb_eq in E. now subst x.
  - intros H. exists GATT_MANAGER_IFACE. split; [exact H |].
    apply String.eqb_refl.
Qed.

(** X11.  [find_adapter] returns the path of the first object, in the
    order of the dict, that exposes the GATT manager interface, and
    [None] exactly when no object does (in particular on an empty
    dict). *)
Theorem X11_find_adapter_first_match
    (objects : list (string * list string)) :
  match find_adapter objects with
  | Some o =>
      exists before props after,
        objects = before ++ (o, props) :: after
        /\ In GATT_MANAGER_IFACE props
        /\ Forall (fun op => ~ In GATT_MANAGER_IFACE (snd op)) before
  | None =>
      Forall (fun op => ~ In GATT_MANAGER_IFACE (snd op)) objects
  end.
Proof.
  induction objects as [| [o props] rest IH]; cbn [find_adapter].
  - constructor.
  - destruct (existsb (String.eqb GATT_MANAGER_IFACE) props) eqn:E.
    + exists [], props, rest. repeat split.
      * now apply exposes_gatt_manager.
      * constructor.
    + assert (Hn : ~ In GATT_MANAGER_IFACE props).
      { intros H. apply exposes_gatt_manager in H. congruence. }
      destruct (find_adapter rest) as [o' |].
      * destruct IH as [before [props' [after [-> [Hin Hb]]]]].
        exists ((o, props) :: before), props', after.
        repeat split; [exact Hin | now constructor].
      * now constructor.
Qed.

Lemma steady_read_idle g :
  steady g -> lock_open g = false ->
  exists f, returned (ReadValue g) = Some f
    /\ nth_error f 0 = Some 0 /\ nth_error f 1 = Some 0
    /\ nth_error f 3 = Some (safe_status g).
Proof.
  intros [[Hr _] [Hvl _]] Hl.
  rewrite (ReadValue_ready g Hr), Hvl, Hl.
  eexists. repeat split.
Qed.

(** X12.  Without an adapter (none found, or an empty path) [main]
    returns having changed nothing.  With one, and a host whose voltage
    stays finite, it reaches the main loop with both flags false, no
    timer pending, the status characteristic registered with its
    default value, and a first status read that returns bytes 0 and 1
    equal to 0 and byte 3 equal to 1 (active). *)
Theorem X12_main_start_up
    (objects : list (string * list string)) (h : host) :
  host_ok h = true ->
  let o := main objects h module_globals in
  returned o = Some tt
  /\ match find_adapter objects with
     | None => final o = module_globals
     | Some adapter =>
         if String.eqb adapter "" then final o = module_globals
         else final o = started h
              /\ otp_verified (final o) = false
              /\ lock_open (final o) = false
              /\ timers (final o) = []
              /\ status_characteristic (final o)
                 = Some [0; 0; 100; 1; 0; 120]
              /\ exists f, returned (ReadValue (final o)) = Some f
                   /\ nth_error f 0 = Some 0
                   /\ nth_error f 1 = Some 0
                   /\ nth_error f 3 = Some 1
     end.
Proof.
  intros Hh. cbv zeta. unfold main.
  destruct (find_adapter objects) as [adapter |]; [| split; reflexivity].
  destruct (String.eqb adapter ""); [split; reflexivity |].
  pose proof (steady_started h Hh) as Hst.
  unfold started in *.
  assert (Hrun : exists g, main_setup h module_globals = Return tt g
                   /\ otp_verified g = false /\ lock_open g = false
                   /\ timers g = [] /\ safe_status g = 1
                   /\ status_characteristic g = Some [0; 0; 100; 1; 0; 120]).
  { unfold main_setup, update_system_health, try_except, bind,
      display_message, exec, ret.
    destruct h as [[u |] vcr]; cbn [proc_uptime vcgencmd lift].
    - unfold raise, ret.
      destruct (Py.int_of_float (Py.fdiv u (Py.float_of_Z 3600)))
        as [e | q].
      + eexists. split; [reflexivity |]. repeat split.
      + destruct vcr; eexists; (split; [reflexivity |]); repeat split.
    - eexists. split; [reflexivity |]. repeat split. }
  destruct Hrun as [g [Hg [Hv [Hl [Ht [Hss Hc]]]]]].
  rewrite Hg in *. cbn [final returned] in *.
  repeat split; try assumption.
  destruct (steady_read_idle g Hst Hl) as [f [Hf [H0 [H1 H3]]]].
  exists f. rewrite Hss in H3. repeat split; assumption.
Qed.

Lemma X12_main_start_up_witness :
  let objects := [("/org/bluez", ["org.bluez.AgentManager1"]);
                  ("/org/bluez/hci0",
                   ["org.bluez.Adapter1"; "org.bluez.GattManager1"])] in
  find_adapter objects = Some "/org/bluez/hci0"
  /\ final (main objects healthy_host module_globals) = booted.
Proof.
  cbv zeta. split; [reflexivity |].
  destruct (X12_main_start_up
              [("/org/bluez", ["org.bluez.AgentManager1"]);
               ("/org/bluez/hci0",
                ["org.bluez.Adapter1"; "org.bluez.GattManager1"])]
              healthy_host) as [_ H].
  - vm_compute. reflexivity.
  - cbn [find_adapter] in H.
    change (existsb (String.eqb GATT_MANAGER_IFACE)
              ["org.bluez.AgentManager1"]) with false in H.
    change (existsb (String.eqb GATT_MANAGER_IFACE)
              ["org.bluez.Adapter1"; "org.bluez.GattManager1"])
      with true in H.
    cbv iota in H.
    change ("/org/bluez/hci0" =? "")%string with false in H.
    cbv iota in H. destruct H as [H _]. exact H.
Defined.

(** ** Object paths and [GetManagedObjects] *)

Lemma str_inj a b : str a = str b -> a = b.
Proof.
  unfold str. intros H. apply to_int_inj.
  assert (Hnn : forall n, Z.to_int n <> Decimal.Pos Decimal.Nil
                          /\ Z.to_int n <> Decimal.Neg Decimal.Nil).
  { intros [| p | p]; cbn; split; try discriminate;
      intros E; injection E as E;
      exact (DecimalPos.Unsigned.to_uint_nonnil p E). }
  destruct (Hnn a) as [Ha1 Ha2]. destruct (Hnn b) as [Hb1 Hb2].
  pose proof (NilZero.isi _ Ha1 Ha2) as Ea.
  pose proof (NilZero.isi _ Hb1 Hb2) as Eb.
  rewrite H in Ea. rewrite Ea in Eb. now injection Eb.
Qed.

Lemma uint_no_slash d : no_slash (NilEmpty.string_of_uint d) = true.
Proof. induction d; cbn; auto. Qed.

Lemma str_no_slash n : no_slash (str n) = true.
Proof.
  unfold str.
  destruct (Z.to_int n) as [d | d]; cbn [NilZero.string_of_int].
  - destruct d; try apply uint_no_slash. reflexivity.
  - change (no_slash (NilZero.string_of_uint d) = true).
    destruct d; try apply uint_no_slash. reflexivity.
Qed.

Lemma string_app_assoc (a b c : string) :
  ((a ++ b) ++ c = a ++ (b ++ c))%string.
Proof. induction a as [| x a IH]; cbn; [reflexivity | now rewrite IH]. Qed.

Lemma string_app_cancel (p x y : string) :
  (p ++ x = p ++ y)%string -> x = y.
Proof.
  induction p as [| c p IH]; cbn; [trivial |].
  intros H. injection H as H. now apply IH.
Qed.

Lemma no_slash_app_slash (a t : string) :
  no_slash (a ++ String "/" t)%string = false.
Proof.
  induction a as [| c a IH]; [reflexivity |].
  change (negb (Ascii.eqb c "/") && no_slash (a ++ String "/" t)%string
          = false).
  rewrite IH. apply andb_false_r.
Qed.

Lemma split_at_slash (a a' t t' : string) :
  no_slash a = true -> no_slash a' = true ->
  (a ++ String "/" t = a' ++ String "/" t')%string ->
  a = a' /\ t = t'.
Proof.
  revert a'. induction a as [| c a IH]; intros [| c' a'] Ha Ha' H.
  - cbn in H. injection H as H. now split.
  - cbn in H. injection H as Hc _. subst c'. cbn in Ha'. discriminate.
  - cbn in H. injection H as Hc _. subst c. cbn in Ha. discriminate.
  - cbn in H. injection H as Hc H. subst c'.
    change (negb (Ascii.eqb c "/") && no_slash a = true) in Ha.
    change (negb (Ascii.eqb c "/") && no_slash a' = true) in Ha'.
    apply andb_true_iff in Ha. apply andb_true_iff in Ha'.
    destruct (IH a' (proj2 Ha) (proj2 Ha') H) as [-> ->]. now split.
Qed.

Lemma object_path_inj (k k' : Z * option Z) :
  object_path k = object_path k' -> k = k'.
Proof.
  destruct k as [i [j |]]; destruct k' as [i' [j' |]];
    unfold object_path; rewrite ?string_app_assoc; intros H;
    apply string_app_cancel in H.
  - change ("/char" ++ str j)%string with (String "/" ("char" ++ str j))
      in H.
    change ("/char" ++ str j')%string with (String "/" ("char" ++ str j'))
      in H.
    destruct (split_at_slash _ _ _ _ (str_no_slash i) (str_no_slash i') H)
      as [Hi Hj].
    apply str_inj in Hi. apply string_app_cancel in Hj.
    apply str_inj in Hj. now subst.
  - exfalso.
    change ("/char" ++ str j)%string with (String "/" ("char" ++ str j))
      in H.
    pose proof (str_no_slash i') as Hn. rewrite <- H in Hn.
    now rewrite no_slash_app_slash in Hn.
  - exfalso.
    change ("/char" ++ str j')%string with (String "/" ("char" ++ str j'))
      in H.
    pose proof (str_no_slash i) as Hn. rewrite H in Hn.
    now rewrite no_slash_app_slash in Hn.
  - apply str_inj in H. now subst.
Qed.

(** X13.  Object paths are unambiguous: two services have the same
    path only if they were created with the same index, two
    characteristics only if their services and their own indices are
    the same, and a service never shares its path with a
    characteristic. *)
Theorem X13_object_paths_are_unambiguous
    (i i' j j' : Z) (u u' cu cu' : string) (p p' : bool)
    (fl fl' : list string) :
  let s := Service_init i u p in
  let s' := Service_init i' u' p' in
  let c := Characteristic_init j cu fl s in
  let c' := Characteristic_init j' cu' fl' s' in
  (srv_path s = srv_path s' -> i = i')
  /\ (chrc_path c = chrc_path c' -> i = i' /\ j = j')
  /\ srv_path s <> chrc_path c'.
Proof.
  cbv zeta. cbn [Service_init Characteristic_init srv_path chrc_path].
  split; [| split].
  - intros H. apply (object_path_inj (i, None) (i', None)) in H.
    now injection H.
  - intros H. apply (object_path_inj (i, Some j) (i', Some j')) in H.
    injection H as -> ->. now split.
  - intros H. apply (object_path_inj (i, None) (i', Some j')) in H.
    discriminate H.
Qed.

(** The paths of the application of [main]. *)
Example main_object_paths (g : globals) :
  map fst (flat_map service_entries (main_services g))
  = ["/org/bluez/guardian/service0";
     "/org/bluez/guardian/service0/char0";
     "/org/bluez/guardian/service0/char1"].
Proof. reflexivity. Qed.

Lemma GetManagedObjects_entries services :
  GetManagedObjects services
  = fold_left set_entry (flat_map service_entries services) [].
Proof.
  unfold GetManagedObjects. generalize (@nil (string * properties)).
  induction services as [| s r IH]; intros d; cbn [fold_left flat_map];
    [reflexivity |].
  rewrite fold_left_app. rewrite IH. f_equal.
  unfold service_entries. cbn [fold_left]. unfold set_entry at 2.
  cbn [fst snd].
  generalize (dict_set (srv_path s) (Service_get_properties s) d).
  induction (srv_characteristics s) as [| c cs IHc]; intros d';
    cbn [fold_left map]; [reflexivity |].
  now rewrite IHc.
Qed.

Lemma dict_set_fresh {V : Type} (k : string) (v : V) (d : dict V) :
  ~ In k (map fst d) -> dict_set k v d = d ++ [(k, v)].
Proof.
  induction d as [| [k' v'] r IH]; cbn; [reflexivity |].
  intros H. destruct (String.eqb_spec k' k) as [E | E].
  - exfalso. apply H. now left.
  - rewrite IH; [reflexivity |]. intros Hin. apply H. now right.
Qed.

Lemma fold_set_entry_fresh l d :
  NoDup (map fst (d ++ l)) -> fold_left set_entry l d = d ++ l.
Proof.
  revert d. induction l as [| [k v] r IH]; intros d H; cbn [fold_left].
  - now rewrite app_nil_r.
  - unfold set_entry at 2. cbn [fst snd].
    rewrite map_app in H. cbn [map fst] in H.
    rewrite dict_set_fresh.
    + rewrite IH; [now rewrite <- app_assoc |].
      rewrite <- app_assoc. cbn [app]. now rewrite map_app.
    + apply NoDup_remove_2 in H. intros Hin. apply H.
      apply in_or_app. now left.
Qed.

Lemma build_service_shape index uuid primary chrcs :
  let service := build_service (index, uuid, primary, chrcs) in
  srv_path service = object_path (index, None)
  /\ srv_uuid service = uuid
  /\ srv_primary service = primary
  /\ srv_characteristics service =
       map (fun c =>
              mkCharacteristic (object_path (index, Some (fst (fst c))))
                (snd (fst c)) (object_path (index, None)) (snd c) [])
         chrcs.
Proof.
  cbv zeta. unfold build_service.
  assert (G : forall s,
             srv_path s = object_path (index, None) ->
             let s' := fold_left
                         (fun service c =>
                            let '(cindex, cuuid, flags) := c in
                            add_characteristic service
                              (Characteristic_init cindex cuuid flags service))
                         chrcs s in
             srv_path s' = object_path (index, None)
             /\ srv_uuid s' = srv_uuid s
             /\ srv_primary s' = srv_primary s
             /\ srv_characteristics s' =
                  srv_characteristics s ++
                  map (fun c =>
                         mkCharacteristic
                           (object_path (index, Some (fst (fst c))))
                           (snd (fst c)) (object_path (index, None))
                           (snd c) [])
                    chrcs).
  { induction chrcs as [| [[ci cu] fl] r IH]; intros s Hs; cbv zeta;
      cbn [fold_left map].
    - rewrite app_nil_r. repeat split. exact Hs.
    - destruct (IH (add_characteristic s (Characteristic_init ci cu fl s)))
        as [H1 [H2 [H3 H4]]]; [exact Hs |].
      repeat split; try assumption.
      rewrite H4. cbn [add_characteristic srv_characteristics].
      rewrite <- app_assoc. cbn [app fst snd].
      unfold Characteristic_init. rewrite Hs. reflexivity. }
  destruct (G (Service_init index uuid primary) eq_refl)
    as [H1 [H2 [H3 H4]]].
  repeat split; assumption.
Qed.

Lemma entries_keys blueprints :
  map fst (flat_map service_entries (map build_service blueprints))
  = map object_path (flat_map blueprint_keys blueprints).
Proof.
  induction blueprints as [| [[[i u] p] cs] r IH]; cbn [map flat_map];
    [reflexivity |].
  rewrite !map_app, IH. f_equal.
  destruct (build_service_shape i u p cs) as [H1 [_ [_ H4]]].
  unfold service_entries, blueprint_keys. cbn [map fst].
  rewrite H1, H4, !map_map. reflexivity.
Qed.

Lemma blueprint_keys_NoDup blueprints :
  NoDup (map blueprint_index blueprints) ->
  Forall (fun b => NoDup (blueprint_chrc_indices b)) blueprints ->
  NoDup (flat_map blueprint_keys blueprints).
Proof.
  induction blueprints as [| [[[i u] p] cs] r IH]; cbn [map flat_map];
    intros Hi Hc; [constructor |].
  apply NoDup_cons_iff in Hi. destruct Hi as [Hi Hr].
  apply Forall_cons_iff in Hc. destruct Hc as [Hc Hcr].
  unfold blueprint_index, blueprint_chrc_indices in *. cbn [fst snd] in *.
  apply NoDup_app.
  - unfold blueprint_keys. constructor.
    + intros H. apply in_map_iff in H. destruct H as [c [E _]]. discriminate.
    + rewrite <- (map_map (fun c => fst (fst c)) (fun j => (i, Some j))).
      apply Injective_map_NoDup; [| exact Hc].
      intros a b E. now injection E.
  - now apply IH.
  - intros k Hk Hk'. apply Hi.
    apply in_flat_map in Hk'. destruct Hk' as [[[[i' u'] p'] cs'] [Hb Hk']].
    apply in_map_iff. exists (i', u', p', cs'). split; [| exact Hb].
    cbn [fst]. unfold blueprint_keys in Hk, Hk'.
    destruct Hk as [<- | Hk]; destruct Hk' as [E | Hk'].
    + now injection E.
    + apply in_map_iff in Hk'. destruct Hk' as [c [E _]]. discriminate.
    + apply in_map_iff in Hk. destruct Hk as [c [<- _]]. discriminate.
    + apply in_map_iff in Hk. destruct Hk as [c [<- _]].
      apply in_map_iff in Hk'. destruct Hk' as [c' [E _]]. now injection E.
Qed.

(** X14.  For an application whose services were created with pairwise
    different indices, each with characteristics of pairwise different
    indices, [GetManagedObjects] returns every service followed by its
    characteristics, each under its own path and exactly once, in the
    order they were added: no entry overwrites another. *)
Theorem X14_GetManagedObjects_lists_every_object
    (blueprints : list (Z * string * bool * list (Z * string * list string))) :
  NoDup (map blueprint_index blueprints) ->
  Forall (fun b => NoDup (blueprint_chrc_indices b)) blueprints ->
  let services := map build_service blueprints in
  GetManagedObjects services = flat_map service_entries services
  /\ NoDup (map fst (GetManagedObjects services))
  /\ List.length (GetManagedObjects services)
     = fold_right (fun b n => S (List.length (snd b) + n)) O blueprints.
Proof.
  intros Hi Hc. cbv zeta.
  assert (Hk : NoDup (map fst (flat_map service_entries
                                 (map build_service blueprints)))).
  { rewrite entries_keys.
    apply Injective_map_NoDup; [exact object_path_inj |].
    now apply blueprint_keys_NoDup. }
  assert (E : GetManagedObjects (map build_service blueprints)
              = flat_map service_entries (map build_service blueprints)).
  { rewrite GetManagedObjects_entries.
    now rewrite (fold_set_entry_fresh _ [] Hk). }
  rewrite E. split; [reflexivity |]. split; [exact Hk |].
  clear. induction blueprints as [| [[[i u] p] cs] r IH];
    cbn [map flat_map fold_right]; [reflexivity |].
  rewrite length_app, IH. cbn [snd]. f_equal. f_equal.
  destruct (build_service_shape i u p cs) as [_ [_ [_ H4]]].
  unfold service_entries. cbn [List.length].
  now rewrite H4, !length_map.
Qed.

Lemma X14_GetManagedObjects_lists_every_object_witness :
  let blueprints :=
    [(0, SERVICE_UUID, true,
      [(0, OTP_CHAR_UUID, ["write"; "write-without-response"]);
       (1, STATUS_CHAR_UUID, ["read"; "notify"])])] in
  map fst (GetManagedObjects (map build_service blueprints))
  = ["/org/bluez/guardian/service0";
     "/org/bluez/guardian/service0/char0";
     "/org/bluez/guardian/service0/char1"].
Proof.
  cbv zeta.
  destruct (X14_GetManagedObjects_lists_every_object
              [(0, SERVICE_UUID, true,
                [(0, OTP_CHAR_UUID, ["write"; "write-without-response"]);
                 (1, STATUS_CHAR_UUID, ["read"; "notify"])])])
    as [H _].
  - repeat constructor; cbn; intuition discriminate.
  - repeat constructor; cbn; intuition discriminate.
  - rewrite H. reflexivity.
Defined.

(** Two services created with the same index: the second takes the
    entry of the first. *)
Example GetManagedObjects_same_index :
  List.length
    (GetManagedObjects
       [Service_init 0 SERVICE_UUID true; Service_init 0 OTP_CHAR_UUID false])
  = 1%nat.
Proof. reflexivity. Qed.

(** ** Notifications never run ahead of the relay *)

Lemma phase_after_app p a b :
  phase_after p (a ++ b) = phase_after (phase_after p a) b.
Proof. unfold phase_after. apply fold_left_app. Qed.

Lemma announce_ok_app p a b :
  announce_ok p (a ++ b)
  = announce_ok p a && announce_ok (phase_after p a) b.
Proof.
  revert p. induction a as [| e a IH]; intros p; cbn [app announce_ok].
  - reflexivity.
  - rewrite IH. unfold phase_after. cbn [fold_left].
    now rewrite andb_assoc.
Qed.

Lemma announces_open_frame v l g :
  announces_open (PropertiesChanged (frame v l g)) = l.
Proof. destruct l; reflexivity. Qed.

Lemma trace_in_order_app g g' evs :
  trace_in_order g ->
  trace g' = trace g ++ evs ->
  announce_ok (if lock_open g then Settled else Closed) evs = true ->
  phase_after (if lock_open g then Settled else Closed) evs
  = (if lock_open g' then Settled else Closed) ->
  trace_in_order g'.
Proof.
  intros [H1 H2] Ht Ha Hp. unfold trace_in_order.
  rewrite Ht, announce_ok_app, phase_after_app, H1, H2.
  split; assumption.
Qed.

Lemma auto_close_lock_trace g :
  serving g ->
  trace (final (auto_close_lock g)) =
  trace g ++
  (if lock_open g
   then [GpioOutput RELAY_PIN LOW; Display "Lock Closed" "Ready";
         PropertiesChanged (frame (otp_verified g) false g);
         PropertiesChanged (frame false false g)]
   else []).
Proof.
  intros [Hr Hs].
  py_globals g Hr P. cbn in Hs.
  destruct sc as [c |]; [| congruence].
  py_unfold. destruct l0; py_run P; rewrite <- ?app_assoc;
    [reflexivity | now rewrite app_nil_r].
Qed.

Lemma trace_in_order_WriteValue value g :
  steady g -> trace_in_order g ->
  trace_in_order (final (WriteValue value g)).
Proof.
  intros [[Hr Hs] _] Hto.
  unfold WriteValue, bind, exec.
  destruct (format_ok (Py.join_chr value)) eqn:Hf.
  - destruct (format_ok_inv _ Hf) as [Hl Hi].
    destruct (verify_otp_accepts _ g Hl Hi Hr) as [g' [-> Hacc]].
    destruct Hacc as [_ [Ho [_ [_ [_ [_ [_ [_ [_ Htr]]]]]]]]].
    unfold notice in Htr.
    destruct (status_characteristic g) as [c |]; [| congruence].
    cbn [final].
    eapply (trace_in_order_app g); [exact Hto | exact Htr | |];
      cbn [lock_open set_otp_value]; rewrite ?Ho;
      destruct (lock_open g);
      cbn -[frame announces_open];
      rewrite ?announces_open_frame; reflexivity.
  - rewrite (verify_otp_rejects _ g Hf). cbn [final].
    eapply (trace_in_order_app g); [exact Hto | | |].
    + cbn. rewrite <- app_assoc. reflexivity.
    + destruct (lock_open g); reflexivity.
    + cbn. destruct (lock_open g); reflexivity.
Qed.

Lemma trace_in_order_same g g' :
  trace g' = trace g -> lock_open g' = lock_open g ->
  trace_in_order g -> trace_in_order g'.
Proof. unfold trace_in_order. intros -> ->. trivial. Qed.

Lemma trace_in_order_fire due rest g :
  steady g -> trace_in_order g ->
  trace_in_order
    (final (auto_close_lock
              (set_timers rest (set_clock (Z.max (clock g) due) g)))).
Proof.
  intros [Hsv _] Hto.
  set (g1 := set_timers rest (set_clock (Z.max (clock g) due) g)).
  assert (Hsv1 : serving g1) by (destruct Hsv; split; assumption).
  pose proof (auto_close_lock_trace g1 Hsv1) as Htr.
  pose proof (auto_close_lock_locks g1) as Hl.
  change (trace g1) with (trace g) in Htr.
  change (lock_open g1) with (lock_open g) in Htr.
  eapply (trace_in_order_app g); [exact Hto | exact Htr | |];
    rewrite ?Hl; destruct (lock_open g);
    cbn -[frame announces_open]; rewrite ?announces_open_frame;
    reflexivity.
Qed.

Lemma trace_in_order_dispatch_due deadline pending g :
  steady g -> timers g = pending -> trace_in_order g ->
  trace_in_order (dispatch_due deadline pending g).
Proof.
  revert g. induction pending as [| due rest IH]; intros g Hg Ht Hto;
    cbn [dispatch_due]; [exact Hto |].
  destruct (due <=? deadline); [| exact Hto].
  destruct (steady_fire due rest g Hg Ht) as [Hg' [_ [_ [Ht' _]]]].
  apply IH; [exact Hg' | exact Ht' |].
  now apply trace_in_order_fire.
Qed.

Lemma trace_in_order_step g i :
  input_ok i = true -> steady g -> trace_in_order g ->
  trace_in_order (step g i).
Proof.
  destruct i as [value | | h | seconds]; cbn [input_ok step];
    intros Hi Hg Hto.
  - now apply trace_in_order_WriteValue.
  - destruct Hg as [[Hr _] _]. rewrite (ReadValue_ready g Hr).
    exact Hto.
  - destruct (update_system_health_frame h g) as [Hl [_ [_ [_ [_ Ht]]]]].
    now apply (trace_in_order_same g).
  - unfold idle.
    pose proof (trace_in_order_dispatch_due (clock g + seconds) (timers g)
                  g Hg eq_refl Hto) as H.
    exact H.
Qed.

Lemma trace_in_order_started h : trace_in_order (started h).
Proof.
  unfold started, main_setup, bind, display_message, exec, ret.
  set (g0 := emit (Display "Guardian Safe" "Ready")
               (set_status_characteristic (Some [0; 0; 100; 1; 0; 120])
                  (emit (Display "Guardian Safe" "Initializing...")
                     module_globals))).
  destruct (update_system_health_frame h g0) as [Hl [_ [_ [_ [_ Ht]]]]].
  assert (H0 : trace_in_order g0) by (split; reflexivity).
  pose proof (trace_in_order_same g0 _ Ht Hl H0) as H1.
  destruct (update_system_health h g0) as [b g' | e g']; exact H1.
Qed.

(** X15.  Over the whole trace of any run since start-up (host
    voltages finite), every notification whose lock_open byte is 1 is
    sent while the relay is settled: after the relay was driven high
    and a sleep of at least 2 s, with no relay low since.  The trace
    ends settled exactly when [lock_open] is true. *)
Theorem X15_open_is_announced_only_when_settled
    (h : host) (l : list input) :
  host_ok h = true ->
  forallb input_ok l = true ->
  let g := run (started h) l in
  announce_ok Closed (trace g) = true
  /\ phase_after Closed (trace g)
     = (if lock_open g then Settled else Closed).
Proof.
  intros Hh Hl. cbv zeta.
  pose proof (steady_started h Hh) as H0.
  pose proof (trace_in_order_started h) as T0.
  revert H0 T0 Hl. generalize (started h). unfold run.
  induction l as [| i l IH]; intros g Hg Tg Hl; cbn [fold_left];
    [exact Tg |].
  cbn [forallb] in Hl. apply andb_true_iff in Hl. destruct Hl as [Hi Hl].
  apply IH; [| | exact Hl].
  - now apply steady_step.
  - now apply trace_in_order_step.
Qed.

Lemma X15_open_is_announced_only_when_settled_witness :
  let g := run (started healthy_host)
             [OtpWrite (payload "123456"); Idle 7;
              OtpWrite (payload "123456"); Idle 20] in
  announce_ok Closed (trace g) = true
  /\ phase_after Closed (trace g) = Closed.
Proof.
  cbv zeta.
  destruct (X15_open_is_announced_only_when_settled healthy_host
              [OtpWrite (payload "123456"); Idle 7;
               OtpWrite (payload "123456"); Idle 20]) as [H1 H2].
  - vm_compute. reflexivity.
  - vm_compute. reflexivity.
  - split; [exact H1 |]. rewrite H2. vm_compute. reflexivity.
Defined.

(** ** How long an accepted code keeps the lock open *)

(** X16.  With no auto-close timer pending, an accepted write opens the
    lock for exactly 15 s of idle time: after the write the lock is
    still open when the main loop has been idle for less than 15 s, and
    it is closed, with [otp_verified] reset, once it has been idle for
    15 s or more. *)
Theorem X16_open_for_fifteen_seconds
    (value : list Byte.byte) (g : globals) (seconds : Z) :
  steady g ->
  timers g = [] ->
  bytes_ok value = true ->
  let g' := idle seconds (final (WriteValue value g)) in
  lock_open g' = (seconds <? 15)
  /\ otp_verified g' = (seconds <? 15).
Proof.
  intros Hg Ht Hb. cbv zeta.
  pose proof (steady_WriteValue value g Hg) as Hg1.
  destruct Hg as [Hsv _].
  destruct (accepted_write value g Hsv Hb) as [Hv [Hl [Hk Htm]]].
  set (g1 := final (WriteValue value g)) in *.
  rewrite Ht in Htm. cbn [app] in Htm.
  unfold idle. rewrite Htm. cbn [dispatch_due].
  destruct (Z.leb_spec (clock g + 18) (clock g1 + seconds)) as [Hd | Hd];
    destruct (Z.ltb_spec seconds 15) as [Hs | Hs]; try lia.
  - destruct (steady_fire (clock g + 18) [] g1 Hg1 Htm)
      as [_ [Hl' [Hv' _]]].
    cbn [lock_open otp_verified set_clock]. split; assumption.
  - cbn [lock_open otp_verified set_clock]. split; assumption.
Qed.

Lemma X16_open_for_fifteen_seconds_witness :
  let g' := idle 14 (final (WriteValue (payload "123456") booted)) in
  lock_open g' = true /\ otp_verified g' = true.
Proof.
  apply (X16_open_for_fifteen_seconds (payload "123456") booted 14).
  - pose proof (steady_started healthy_host) as H. apply H.
    vm_compute. reflexivity.
  - reflexivity.
  - vm_compute. reflexivity.
Defined.
